(** * Putter: the optimistic-concurrency save protocol of [putter.go]

    A shallow embedding of the HTTP server of [src/putter.go] (the program
    with the [Server] struct): the request handlers become functions on an
    explicit state made of the [Server] value and the file system.

    - What the code cannot control is an input of every step: the errors
      of the system calls and the formatted time, as an [Env].
    - [Server.mu] makes the body of each handler atomic with respect to
      the others, so a run is a sequence of whole requests; the mutex is
      kept in the state because [handleGet] does not release it on its
      error exits.
    - [crypto/md5] and [encoding/hex] are written out; [compress/gzip] and
      [http.ServeContent] are interfaces, with the laws used. *)

From Stdlib Require Import ZArith List Strings.String Strings.Ascii Strings.Byte Bool Lia.
From stdpp Require Import gmap strings list fin_maps pretty.

Local Open Scope Z_scope.

(** ** crypto/md5 and encoding/hex

    [handlePut] and [newServer] feed the document bytes to [md5.New()] and
    [setEtagFromHash] renders [h.Sum(nil)] with [hex.EncodeToString].  Both
    are library code; they are written out here (RFC 1321, 32-bit words as
    [Z] with the wrap-around explicit) so that ETags can be computed. *)
Module MD5.

Definition mask32 : Z := 0xFFFFFFFF.

Definition add32 (a b : Z) : Z := Z.land (a + b) mask32.

Definition not32 (a : Z) : Z := Z.lxor a mask32.

Definition rotl32 (x s : Z) : Z :=
  Z.land (Z.lor (Z.shiftl x s) (Z.shiftr x (32 - s))) mask32.

(** floor(2^32 * |sin(i+1)|) for i = 0..63 *)
Definition K : list Z :=
  [ 3614090360; 3905402710; 606105819; 3250441966;
    4118548399; 1200080426; 2821735955; 4249261313;
    1770035416; 2336552879; 4294925233; 2304563134;
    1804603682; 4254626195; 2792965006; 1236535329;
    4129170786; 3225465664; 643717713; 3921069994;
    3593408605; 38016083; 3634488961; 3889429448;
    568446438; 3275163606; 4107603335; 1163531501;
    2850285829; 4243563512; 1735328473; 2368359562;
    4294588738; 2272392833; 1839030562; 4259657740;
    2763975236; 1272893353; 4139469664; 3200236656;
    681279174; 3936430074; 3572445317; 76029189;
    3654602809; 3873151461; 530742520; 3299628645;
    4096336452; 1126891415; 2878612391; 4237533241;
    1700485571; 2399980690; 4293915773; 2240044497;
    1873313359; 4264355552; 2734768916; 1309151649;
    4149444226; 3174756917; 718787259; 3951481745 ].

Definition S : list Z :=
  [ 7; 12; 17; 22; 7; 12; 17; 22; 7; 12; 17; 22; 7; 12; 17; 22;
    5; 9; 14; 20; 5; 9; 14; 20; 5; 9; 14; 20; 5; 9; 14; 20;
    4; 11; 16; 23; 4; 11; 16; 23; 4; 11; 16; 23; 4; 11; 16; 23;
    6; 10; 15; 21; 6; 10; 15; 21; 6; 10; 15; 21; 6; 10; 15; 21 ].

Record digest_state := DS { rA : Z; rB : Z; rC : Z; rD : Z }.

Definition init : digest_state :=
  DS 0x67452301 0xefcdab89 0x98badcfe 0x10325476.

(** one of the 64 operations of a block; [m] holds the 16 words of the block *)
Definition op (m : list Z) (st : digest_state) (i : nat) : digest_state :=
  let '(DS a b c d) := st in
  let iz := Z.of_nat i in
  let '(f, g) :=
    if (i <? 16)%nat then
      (Z.lor (Z.land b c) (Z.land (not32 b) d), iz)
    else if (i <? 32)%nat then
      (Z.lor (Z.land d b) (Z.land (not32 d) c), (5 * iz + 1) mod 16)
    else if (i <? 48)%nat then
      (Z.lxor (Z.lxor b c) d, (3 * iz + 5) mod 16)
    else
      (Z.lxor c (Z.lor b (not32 d)), (7 * iz) mod 16) in
  let f' := add32 (add32 (add32 f a) (nth i K 0)) (nth (Z.to_nat g) m 0) in
  DS d (add32 b (rotl32 f' (nth i S 0))) b c.

(** little-endian word of four byte values *)
Definition word_of (bs : list Z) : Z :=
  match bs with
  | [b0; b1; b2; b3] =>
      Z.lor b0 (Z.lor (Z.shiftl b1 8) (Z.lor (Z.shiftl b2 16) (Z.shiftl b3 24)))
  | _ => 0
  end.

Fixpoint chunks (fuel n : nat) (l : list Z) : list (list Z) :=
  match fuel with
  | O => []
  | Datatypes.S fuel' =>
      match l with
      | [] => []
      | _ => firstn n l :: chunks fuel' n (skipn n l)
      end
  end.

Definition block (st : digest_state) (bytes64 : list Z) : digest_state :=
  let m := List.map word_of (chunks 16 4 bytes64) in
  let '(DS a b c d) := fold_left (op m) (seq 0 64) st in
  DS (add32 (rA st) a) (add32 (rB st) b) (add32 (rC st) c) (add32 (rD st) d).

Definition le_bytes (n : nat) (x : Z) : list Z :=
  List.map (fun i => Z.land (Z.shiftr x (8 * Z.of_nat i)) 0xFF) (seq 0 n).

(** the message, a 1 bit, zeros up to 56 mod 64, the bit length on 64 bits *)
Definition pad (msg : list Z) : list Z :=
  let len := Z.of_nat (length msg) in
  let zeros := Z.to_nat ((55 - len) mod 64) in
  msg ++ [0x80] ++ repeat 0 zeros ++ le_bytes 8 ((8 * len) mod 2 ^ 64).

Definition byte_of_Z (z : Z) : byte :=
  match Byte.of_N (Z.to_N (Z.land z 0xFF)) with
  | Some b => b
  | None => x00
  end.

Definition Z_of_byte (b : byte) : Z := Z.of_N (Byte.to_N b).

(** [h := md5.New(); h.Write(data); h.Sum(nil)] *)
Definition sum (data : list byte) : list byte :=
  let padded := pad (List.map Z_of_byte data) in
  let '(DS a b c d) :=
    fold_left block (chunks (length padded) 64 padded) init in
  List.map byte_of_Z (le_bytes 4 a ++ le_bytes 4 b ++ le_bytes 4 c ++ le_bytes 4 d).

End MD5.

Module Hex.

Definition hextable : list ascii := list_ascii_of_string "0123456789abcdef".

Definition digit (v : Z) : ascii := nth (Z.to_nat v) hextable "0"%char.

(** [hex.EncodeToString]: two characters per byte, high nibble first *)
Fixpoint EncodeToString (src : list byte) : string :=
  match src with
  | [] => EmptyString
  | b :: rest =>
      let v := MD5.Z_of_byte b in
      String (digit (Z.shiftr v 4))
        (String (digit (Z.land v 0x0f)) (EncodeToString rest))
  end.

End Hex.

(** ** The data the server works on *)

Definition bytes_of (s : string) : list byte := list_byte_of_string s.

Definition headerAcceptEncoding : string := "Accept-Encoding".
Definition headerContentEncoding : string := "Content-Encoding".
Definition headerContentLength : string := "Content-Length".
Definition headerDav : string := "Dav".
Definition headerEtag : string := "ETag".
Definition headerIfMatch : string := "If-Match".
Definition encodingGzip : string := "gzip".
Definition extensionGzip : string := ".gz".

Definition MethodHead : string := "HEAD".
Definition MethodOptions : string := "OPTIONS".
Definition MethodGet : string := "GET".
Definition MethodPut : string := "PUT".

Definition StatusOK : Z := 200.
Definition StatusNotFound : Z := 404.
Definition StatusMethodNotAllowed : Z := 405.
Definition StatusPreconditionFailed : Z := 412.
Definition StatusInternalServerError : Z := 500.

(** The file system: the content of every regular file, by path.  Paths are
    compared as strings (no links, no normalisation); directories are not
    represented, a missing directory shows as a failing [os.Create]. *)
Abbreviation FS := (gmap string (list byte)).

(** [http.Header], with [Get] answering the empty string for a missing key.
    net/http canonicalises keys in [Set] and [Get] alike; the keys are kept
    as the source spells them. *)
Abbreviation Header := (gmap string string).

Definition Get (key : string) (h : Header) : string := default ""%string (h !! key).

Record Request := {
  Method : string;
  URLPath : string;
  ReqHeader : Header;
  Body : list byte
}.

(** What the handler wrote to its [http.ResponseWriter]. *)
Record Response := {
  Status : Z;
  RespHeader : Header;
  RespBody : list byte
}.

(** A request either gets its response or waits for [Server.mu] for ever. *)
Inductive Outcome :=
  | Responded (w : Response)
  | Blocked.

(** [sync.RWMutex], as far as a run of complete requests can see it: read
    locks that were taken and not released, and a writer queued behind
    them (which in turn holds back every later reader). *)
Record RWMutex := {
  readerCount : nat;
  writerWaiting : bool
}.

Definition RLock (m : RWMutex) : option RWMutex :=
  if writerWaiting m then None
  else Some {| readerCount := Datatypes.S (readerCount m); writerWaiting := false |}.

Definition RUnlock (m : RWMutex) : RWMutex :=
  {| readerCount := Nat.pred (readerCount m); writerWaiting := writerWaiting m |}.

(** [Lock] is granted when nobody holds or awaits the lock; the critical
    section of [handlePut] ends with the deferred [Unlock], which gives the
    mutex back as it was. *)
Definition Lock (m : RWMutex) : bool :=
  (readerCount m =? 0)%nat && negb (writerWaiting m).

Definition queue_writer (m : RWMutex) : RWMutex :=
  {| readerCount := readerCount m; writerWaiting := true |}.

Record Server := {
  mu : RWMutex;
  etag : string;
  fileName : string;
  archiveDirName : string;
  archiveFormat : string;
  isArchive : bool;
  isCompress : bool
}.

Definition set_mu (m : RWMutex) (s : Server) : Server :=
  {| mu := m; etag := etag s; fileName := fileName s;
     archiveDirName := archiveDirName s; archiveFormat := archiveFormat s;
     isArchive := isArchive s; isCompress := isCompress s |}.

Definition set_etag (t : string) (s : Server) : Server :=
  {| mu := mu s; etag := t; fileName := fileName s;
     archiveDirName := archiveDirName s; archiveFormat := archiveFormat s;
     isArchive := isArchive s; isCompress := isCompress s |}.

(** What the operating system answers during one request (or during
    start-up).  A flag set means that this call returns an error; a copy
    that fails leaves the given bytes in its destination. *)
Record Env := {
  now_formatted : string;  (* time.Now().UTC().Format(s.archiveFormat) *)
  tempfile_err : bool;     (* ioutil.TempFile *)
  body_err : bool;         (* io.Copy(io.MultiWriter(f, hash), r.Body) *)
  close_err : bool;        (* f.Close() *)
  archive_open_err : bool;
  archive_create_err : bool;
  archive_copy_err : option (list byte);
  rename_err : bool;       (* os.Rename(f.Name(), s.fileName) *)
  gz_open_err : bool;
  gz_create_err : bool;
  gz_copy_err : option (list byte);
  gz_close_err : option (list byte);  (* the deferred dstz.Close(), unchecked *)
  get_open_err : bool;     (* os.Open in handleGet and newServer *)
  get_stat_err : bool;     (* f.Stat() *)
  hash_copy_err : bool     (* io.Copy(hash, f) in newServer *)
}.

(** Every call succeeds; [stamp] is the formatted time. *)
Definition calm (stamp : string) : Env :=
  {| now_formatted := stamp; tempfile_err := false; body_err := false;
     close_err := false; archive_open_err := false; archive_create_err := false;
     archive_copy_err := None; rename_err := false; gz_open_err := false;
     gz_create_err := false; gz_copy_err := None; gz_close_err := None;
     get_open_err := false; get_stat_err := false; hash_copy_err := false |}.

(** [compress/gzip]: writing through [gzip.NewWriterLevel(dst,
    gzip.BestCompression)] and closing it, and reading back through
    [gzip.NewReader]. *)
Class Gzip := {
  gzip_best : list byte -> list byte;
  gunzip : list byte -> option (list byte);
  gunzip_gzip : forall data, gunzip (gzip_best data) = Some data
}.

(** The request headers on which [http.ServeContent] answers otherwise
    than by sending the whole file. *)
Definition conditional_headers : list string :=
  ["If-Match"; "If-None-Match"; "If-Modified-Since"; "If-Unmodified-Since";
   "If-Range"; "Range"]%string.

Definition plain (h : Header) : Prop :=
  Forall (fun key => h !! key = None) conditional_headers.

(** [net/http]: [http.ServeContent], given the request headers, the
    headers the handler has set and the content of the file.  Of the
    headers it adds itself (Content-Type, Last-Modified, Accept-Ranges)
    no account is kept.  A request without conditional or range headers
    gets the whole content with status 200. *)
Class NetHTTP := {
  ServeContent : Header -> Header -> list byte -> Response;
  ServeContent_plain : forall reqh h content,
    plain reqh ->
    ServeContent reqh h content =
      {| Status := StatusOK; RespHeader := h; RespBody := content |}
}.

Inductive error :=
  | ErrOpen
  | ErrCreate
  | ErrCopy.

(** [os.Open]: the bytes the handle will read, if the file can be opened *)
Definition os_Open (fails : bool) (fs : FS) (name : string) : option (list byte) :=
  if fails then None else fs !! name.

(** [os.Create]: the file exists and is empty afterwards *)
Definition os_Create (fails : bool) (fs : FS) (name : string) : option FS :=
  if fails then None else Some (<[name := []]> fs).

(** [strings.Contains] *)
Fixpoint Contains (s substr : string) : bool :=
  if String.prefix substr s then true
  else match s with
       | EmptyString => false
       | String _ s' => Contains s' substr
       end.

(** ** The server *)

(** the one-character string of a double quote *)
Definition dquote : string := String "034"%char EmptyString.

(** [setEtagFromHash], on the digest [h.Sum(nil)] *)
Definition setEtagFromHash (digest : list byte) (s : Server) : Server :=
  set_etag (dquote +:+ Hex.EncodeToString digest +:+ dquote) s.

Definition archivePathOf (s : Server) (e : Env) : string :=
  archiveDirName s +:+ "/" +:+ now_formatted e.

Definition gzPathOf (s : Server) : string := fileName s +:+ extensionGzip.

(** [archiveWiki].  The error of [os.Mkdir] is dropped by the source. *)
Definition archiveWiki (s : Server) (e : Env) (fs : FS) : FS * option error :=
  if negb (isArchive s) then (fs, None)
  else
    match os_Open (archive_open_err e) fs (fileName s) with
    | None => (fs, Some ErrOpen)
    | Some _ =>
        match os_Create (archive_create_err e) fs (archivePathOf s e) with
        | None => (fs, Some ErrCreate)
        | Some fs1 =>
            match archive_copy_err e with
            | Some partial => (<[archivePathOf s e := partial]> fs1, Some ErrCopy)
            | None =>
                (<[archivePathOf s e := default [] (fs1 !! fileName s)]> fs1, None)
            end
        end
    end.

Section WithGzip.
Context {codec : Gzip} {net : NetHTTP}.

(** [compressWiki].  [gzip.NewWriterLevel] cannot fail at
    [gzip.BestCompression]; an error of the deferred [dstz.Close()] is not
    looked at, so the function still returns nil. *)
Definition compressWiki (s : Server) (e : Env) (fs : FS) : FS * option error :=
  if negb (isCompress s) then (fs, None)
  else
    match os_Open (gz_open_err e) fs (fileName s) with
    | None => (fs, Some ErrOpen)
    | Some _ =>
        match os_Create (gz_create_err e) fs (gzPathOf s) with
        | None => (fs, Some ErrCreate)
        | Some fs1 =>
            match gz_copy_err e with
            | Some partial => (<[gzPathOf s := partial]> fs1, Some ErrCopy)
            | None =>
                match gz_close_err e with
                | Some partial => (<[gzPathOf s := partial]> fs1, None)
                | None =>
                    (<[gzPathOf s := gzip_best (default [] (fs1 !! fileName s))]> fs1, None)
                end
            end
        end
    end.

(** [newServer].  [None] for the server stands for [log.Fatal]. *)
Definition newServer (fileName' archiveDirName' archiveFormat' : string)
    (isArchive' isCompress' : bool) (e : Env) (fs : FS) : FS * option Server :=
  let s := {| mu := {| readerCount := 0; writerWaiting := false |};
              etag := "";
              fileName := fileName';
              archiveDirName := archiveDirName';
              archiveFormat := archiveFormat';
              isArchive := isArchive';
              isCompress := isArchive' |} in
  match os_Open (get_open_err e) fs (fileName s) with
  | None => (fs, None)
  | Some content =>
      if hash_copy_err e then (fs, None)
      else
        let s1 := setEtagFromHash (MD5.sum content) s in
        match compressWiki s1 e fs with
        | (fs1, Some _) => (fs1, None)
        | (fs1, None) => (fs1, Some s1)
        end
  end.

(** The command-line flags that reach [newServer] from [main]. *)
Record Flags := {
  flag_wiki : string;
  flag_archive : bool;
  flag_archive_dir : string;
  flag_archive_format : string;
  flag_compress : bool
}.

Definition default_flags : Flags :=
  {| flag_wiki := "index.html"; flag_archive := true; flag_archive_dir := "old";
     flag_archive_format := "2006-01-02-15-04-05.000.html"; flag_compress := true |}.

Definition main (fl : Flags) (e : Env) (fs : FS) : FS * option Server :=
  newServer (flag_wiki fl) (flag_archive_dir fl) (flag_archive_format fl)
    (flag_archive fl) (flag_compress fl) e fs.

Definition respond (st : Z) (h : Header) (b : list byte) : Outcome :=
  Responded {| Status := st; RespHeader := h; RespBody := b |}.

(** [handleHead] *)
Definition handleHead (s : Server) : Server * Outcome :=
  match RLock (mu s) with
  | None => (s, Blocked)
  | Some m => (set_mu (RUnlock m) s, respond StatusOK {[ headerEtag := etag s ]} [])
  end.

(** [handleOptions] *)
Definition handleOptions : Outcome :=
  respond StatusOK {[ headerDav := "putter"%string ]} [].

(** [handleGet].  The two error exits return without [RUnlock]. *)
Definition handleGet (e : Env) (r : Request) (s : Server) (fs : FS) : Server * Outcome :=
  match RLock (mu s) with
  | None => (s, Blocked)
  | Some m =>
      let etag0 := etag s in
      let acceptEncoding := Get headerAcceptEncoding (ReqHeader r) in
      let zipped := isCompress s && Contains acceptEncoding encodingGzip in
      let extension := if zipped then extensionGzip else ""%string in
      let h0 : Header :=
        if zipped then {[ headerContentEncoding := encodingGzip ]} else ∅ in
      match os_Open (get_open_err e) fs (fileName s +:+ extension) with
      | None => (set_mu m s, respond StatusInternalServerError h0 [])
      | Some content =>
          if get_stat_err e then
            (set_mu m s, respond StatusInternalServerError h0 [])
          else
            let h1 := <[ headerContentLength := pretty (Z.of_nat (length content)) ]> h0 in
            let h2 := <[ headerEtag := etag0 ]> h1 in
            (set_mu (RUnlock m) s, Responded (ServeContent (ReqHeader r) h2 content))
      end
  end.

(** The part of [handlePut] that runs between [s.mu.Lock()] and the
    deferred [s.mu.Unlock()]; [staged] is the content of the temporary file
    and [digest] the sum of the hash that was fed along with it. *)
Definition handlePutLocked (e : Env) (r : Request) (staged digest : list byte)
    (s : Server) (fs : FS) : Server * FS * Response :=
  let ifMatch := Get headerIfMatch (ReqHeader r) in
  if negb (String.eqb ifMatch "") && negb (String.eqb ifMatch (etag s)) then
    (s, fs, {| Status := StatusPreconditionFailed; RespHeader := ∅; RespBody := [] |})
  else
    match archiveWiki s e fs with
    | (fs1, Some _) =>
        (s, fs1, {| Status := StatusInternalServerError; RespHeader := ∅; RespBody := [] |})
    | (fs1, None) =>
        if rename_err e then
          (s, fs1, {| Status := StatusInternalServerError; RespHeader := ∅; RespBody := [] |})
        else
          let fs2 := <[fileName s := staged]> fs1 in
          match compressWiki s e fs2 with
          | (fs3, Some _) =>
              (s, fs3, {| Status := StatusInternalServerError; RespHeader := ∅; RespBody := [] |})
          | (fs3, None) =>
              let s' := setEtagFromHash digest s in
              (s', fs3, {| Status := StatusOK;
                           RespHeader := {[ headerEtag := etag s' ]};
                           RespBody := [] |})
          end
    end.

(** [handlePut].  The temporary file is private to the request (a fresh
    name from [ioutil.TempFile], removed by the deferred [os.Remove] on
    every exit), so it is carried as a value and not kept in the [FS]. *)
Definition handlePut (e : Env) (r : Request) (s : Server) (fs : FS)
    : Server * FS * Outcome :=
  if tempfile_err e then (s, fs, respond StatusInternalServerError ∅ [])
  else if body_err e then (s, fs, respond StatusInternalServerError ∅ [])
  else
    let staged := Body r in
    let digest := MD5.sum (Body r) in
    if close_err e then (s, fs, respond StatusInternalServerError ∅ [])
    else if Lock (mu s) then
      let '(s', fs', w) := handlePutLocked e r staged digest s fs in
      (s', fs', Responded w)
    else (set_mu (queue_writer (mu s)) s, fs, Blocked).

(** [ServeHTTP] *)
Definition ServeHTTP (e : Env) (r : Request) (s : Server) (fs : FS)
    : Server * FS * Outcome :=
  if negb (String.eqb (URLPath r) "/") then (s, fs, respond StatusNotFound ∅ [])
  else if String.eqb (Method r) MethodHead then
    let '(s', o) := handleHead s in (s', fs, o)
  else if String.eqb (Method r) MethodOptions then (s, fs, handleOptions)
  else if String.eqb (Method r) MethodGet then
    let '(s', o) := handleGet e r s fs in (s', fs, o)
  else if String.eqb (Method r) MethodPut then handlePut e r s fs
  else (s, fs, respond StatusMethodNotAllowed ∅ []).

(** A run of the server: the requests are served one after the other, each
    with the answers the operating system gives during it. *)
Fixpoint serve (reqs : list (Env * Request)) (s : Server) (fs : FS)
    : Server * FS * list Outcome :=
  match reqs with
  | [] => (s, fs, [])
  | (e, r) :: rest =>
      let '(s1, fs1, o) := ServeHTTP e r s fs in
      let '(s2, fs2, os) := serve rest s1 fs1 in
      (s2, fs2, o :: os)
  end.

(** For each request of a run: the name its archive file gets, and the
    live document as it is read just before the request is served. *)
Fixpoint live_before (reqs : list (Env * Request)) (s : Server) (fs : FS)
    : list (string * list byte) :=
  match reqs with
  | [] => []
  | (e, r) :: rest =>
      let '(s1, fs1, _) := ServeHTTP e r s fs in
      (archivePathOf s e, default [] (fs !! fileName s)) :: live_before rest s1 fs1
  end.

End WithGzip.

(** ** Notions the statements use *)

(** The ETag that [setEtagFromHash] builds from the md5 sum of [data]. *)
Definition etagOf (data : list byte) : string :=
  dquote +:+ Hex.EncodeToString (MD5.sum data) +:+ dquote.

(** a character among 0-9 and a-f *)
Definition lower_hex_digit (c : ascii) : bool :=
  let n := nat_of_ascii c in
  ((48 <=? n) && (n <=? 57) || (97 <=? n) && (n <=? 102))%nat.

Fixpoint string_forallb (p : ascii -> bool) (s : string) : bool :=
  match s with
  | EmptyString => true
  | String c s' => p c && string_forallb p s'
  end.

(** The files of the archive directory. *)
Definition archiveEntries (s : Server) (fs : FS) : FS :=
  filter (fun kv : string * list byte =>
            String.prefix (archiveDirName s +:+ "/") kv.1 = true) fs.

(** The upload reached the temporary file: [ioutil.TempFile], the copy of
    the body and [f.Close()] all succeeded. *)
Definition staged_ok (e : Env) : Prop :=
  tempfile_err e = false /\ body_err e = false /\ close_err e = false.

(** No call of the write path returns an error. *)
Definition no_failure (e : Env) : Prop :=
  staged_ok e /\
  archive_open_err e = false /\ archive_create_err e = false /\
  archive_copy_err e = None /\ rename_err e = false /\
  gz_open_err e = false /\ gz_create_err e = false /\ gz_copy_err e = None.

(** The caller's token passes the check of [handlePut]. *)
Definition token_ok (r : Request) (s : Server) : Prop :=
  Get headerIfMatch (ReqHeader r) = ""%string \/
  Get headerIfMatch (ReqHeader r) = etag s.

(** The configuration fields of a [Server]: all but [mu] and [etag]. *)
Definition same_config (s s' : Server) : Prop :=
  fileName s' = fileName s /\ archiveDirName s' = archiveDirName s /\
  archiveFormat s' = archiveFormat s /\ isArchive s' = isArchive s /\
  isCompress s' = isCompress s.

(** A PUT to the managed path. *)
Definition is_put (r : Request) : Prop :=
  Method r = MethodPut /\ URLPath r = "/"%string.

(** The request was answered 200. *)
Definition succeeded (o : Outcome) : Prop :=
  exists w, o = Responded w /\ Status w = StatusOK.

(** The live document and its compressed variant are not files of the
    archive directory. *)
Definition outside_archive (s : Server) : Prop :=
  String.prefix (archiveDirName s +:+ "/") (fileName s) = false /\
  String.prefix (archiveDirName s +:+ "/") (gzPathOf s) = false.

(** The ETag held by the server is the one of the live document. *)
Definition consistent (s : Server) (fs : FS) : Prop :=
  exists doc, fs !! fileName s = Some doc /\ etag s = etagOf doc.

(** The state every request finds when no call has failed so far: the
    lock is free, and the files the handlers open are there. *)
Definition healthy (s : Server) (fs : FS) : Prop :=
  Lock (mu s) = true /\
  is_Some (fs !! fileName s) /\
  (isCompress s = true -> is_Some (fs !! gzPathOf s)).

(** *** A codec and a small site to run the server on *)

(** A codec that frames the data behind the two magic bytes of gzip. *)
Definition framed_gzip (data : list byte) : list byte := x1f :: x8b :: data.

Definition framed_gunzip (z : list byte) : option (list byte) :=
  match z with
  | x1f :: x8b :: data => Some data
  | _ => None
  end.

#[export] Instance framed : Gzip :=
  {| gzip_best := framed_gzip; gunzip := framed_gunzip;
     gunzip_gzip := fun data => eq_refl |}.

(** [ServeContent] for the requests of the examples, which are plain. *)
#[export] Instance whole_file : NetHTTP :=
  {| ServeContent := fun _ h content =>
       {| Status := StatusOK; RespHeader := h; RespBody := content |};
     ServeContent_plain := fun _ _ _ _ => eq_refl |}.

Definition v1 : list byte := bytes_of "v1".
Definition v2 : list byte := bytes_of "v2".
Definition v3 : list byte := bytes_of "v3".

(** Before start-up: the wiki alone. *)
Definition disk0 : FS := {[ "index.html"%string := v1 ]}.

(** After start-up with the default flags. *)
Definition disk1 : FS := <[ "index.html.gz"%string := framed_gzip v1 ]> disk0.

Definition server1 : Server :=
  {| mu := {| readerCount := 0; writerWaiting := false |};
     etag := etagOf v1;
     fileName := "index.html";
     archiveDirName := "old";
     archiveFormat := "2006-01-02-15-04-05.000.html";
     isArchive := true;
     isCompress := true |}.

(** After a PUT of "v2" at [stamp1]. *)
Definition disk2 : FS :=
  <[ "index.html.gz"%string := framed_gzip v2 ]>
    (<[ "index.html"%string := v2 ]>
       (<[ "old/2026-01-02-03-04-05.000.html"%string := v1 ]> disk1)).

Definition server2 : Server := setEtagFromHash (MD5.sum v2) server1.

Definition reqPut (body : list byte) (ifMatch : option string) : Request :=
  {| Method := MethodPut; URLPath := "/";
     ReqHeader := match ifMatch with
                  | Some t => {[ headerIfMatch := t ]}
                  | None => ∅
                  end;
     Body := body |}.

Definition reqGet (acceptEncoding : option string) : Request :=
  {| Method := MethodGet; URLPath := "/";
     ReqHeader := match acceptEncoding with
                  | Some t => {[ headerAcceptEncoding := t ]}
                  | None => ∅
                  end;
     Body := [] |}.

Definition reqHead : Request :=
  {| Method := MethodHead; URLPath := "/"; ReqHeader := ∅; Body := [] |}.

(** --archive=false --compress=true *)
Definition flags_compress_only : Flags :=
  {| flag_wiki := "index.html"; flag_archive := false; flag_archive_dir := "old";
     flag_archive_format := "2006-01-02-15-04-05.000.html"; flag_compress := true |}.

(** --archive=true --compress=false *)
Definition flags_archive_only : Flags :=
  {| flag_wiki := "index.html"; flag_archive := true; flag_archive_dir := "old";
     flag_archive_format := "2006-01-02-15-04-05.000.html"; flag_compress := false |}.

Definition stamp1 : string := "2026-01-02-03-04-05.000.html".
Definition stamp2 : string := "2026-01-02-03-04-06.250.html".

(** [calm stamp], but the copy of the request body fails. *)
Definition body_fails (stamp : string) : Env :=
  {| now_formatted := stamp; tempfile_err := false; body_err := true;
     close_err := false; archive_open_err := false; archive_create_err := false;
     archive_copy_err := None; rename_err := false; gz_open_err := false;
     gz_create_err := false; gz_copy_err := None; gz_close_err := None;
     get_open_err := false; get_stat_err := false; hash_copy_err := false |}.

(** [calm stamp], but [os.Create] of the compressed variant fails. *)
Definition gz_create_fails (stamp : string) : Env :=
  {| now_formatted := stamp; tempfile_err := false; body_err := false;
     close_err := false; archive_open_err := false; archive_create_err := false;
     archive_copy_err := None; rename_err := false; gz_open_err := false;
     gz_create_err := true; gz_copy_err := None; gz_close_err := None;
     get_open_err := false; get_stat_err := false; hash_copy_err := false |}.

(** [calm stamp], but [os.Open] in [handleGet] fails. *)
Definition get_open_fails (stamp : string) : Env :=
  {| now_formatted := stamp; tempfile_err := false; body_err := false;
     close_err := false; archive_open_err := false; archive_create_err := false;
     archive_copy_err := None; rename_err := false; gz_open_err := false;
     gz_create_err := false; gz_copy_err := None; gz_close_err := None;
     get_open_err := true; get_stat_err := false; hash_copy_err := false |}.

(** ** The rest of [main] *)

(** [fixPath].  Indexing an empty string panics: [None]. *)
Definition fixPath (p : string) : option string :=
  match String.get 0 p with
  | None => None
  | Some c =>
      let p1 := if Ascii.eqb c "/" then p else "/" +:+ p in
      match String.get (String.length p1 - 1) p1 with
      | None => None
      | Some d => Some (if Ascii.eqb d "/" then p1 else p1 +:+ "/")
      end
  end.

(** [whitelistMethods].  [allow] is the Go map, in which a missing key reads
    as false. *)
Definition whitelistMethods (h : Request -> Response) (methods : list string)
    : Request -> Response :=
  let allow : gmap string bool :=
    fold_left (fun m method => <[method := true]> m) methods ∅ in
  fun r =>
    if default false (allow !! Method r) then h r
    else {| Status := StatusMethodNotAllowed; RespHeader := ∅; RespBody := [] |}.

(** ** The first program of [putter.go]: no [Server], no ETag *)
Module Simple.

(** [handleOptions] *)
Definition handleOptions : Response :=
  {| Status := StatusOK; RespHeader := {[ headerDav := "putter"%string ]}; RespBody := [] |}.

(** [archiveWiki]; [now_formatted] is the time in the layout
    "2006-01-02-15-04-05.000". *)
Definition archiveWiki (e : Env) (fs : FS) : FS * option error :=
  match os_Open (archive_open_err e) fs "index.html" with
  | None => (fs, Some ErrOpen)
  | Some _ =>
      let filename := "old/" +:+ now_formatted e +:+ ".html" in
      match os_Create (archive_create_err e) fs filename with
      | None => (fs, Some ErrCreate)
      | Some fs1 =>
          match archive_copy_err e with
          | Some partial => (<[filename := partial]> fs1, Some ErrCopy)
          | None => (<[filename := default [] (fs1 !! "index.html"%string)]> fs1, None)
          end
      end
  end.

(** [handlePut].  It returns without [WriteHeader] when all went well, and
    net/http then answers 200. *)
Definition handlePut (e : Env) (r : Request) (fs : FS) : FS * Response :=
  let failed := {| Status := StatusInternalServerError; RespHeader := ∅; RespBody := [] |} in
  if tempfile_err e then (fs, failed)
  else if body_err e then (fs, failed)
  else if close_err e then (fs, failed)
  else
    match archiveWiki e fs with
    | (fs1, Some _) => (fs1, failed)
    | (fs1, None) =>
        if rename_err e then (fs1, failed)
        else (<[ "index.html"%string := Body r ]> fs1,
              {| Status := StatusOK; RespHeader := ∅; RespBody := [] |})
    end.

(** The handler of [main]; [fileServer] is [http.FileServer(http.Dir("."))]. *)
Definition handle (fileServer : FS -> Request -> Response)
    (e : Env) (r : Request) (fs : FS) : FS * Response :=
  if String.eqb (Method r) MethodGet then (fs, fileServer fs r)
  else if String.eqb (Method r) MethodOptions then (fs, handleOptions)
  else if String.eqb (Method r) MethodPut then handlePut e r fs
  else (fs, {| Status := StatusMethodNotAllowed; RespHeader := ∅; RespBody := [] |}).

End Simple.

(** [e] with another formatted time. *)
Definition with_stamp (stamp : string) (e : Env) : Env :=
  {| now_formatted := stamp; tempfile_err := tempfile_err e; body_err := body_err e;
     close_err := close_err e; archive_open_err := archive_open_err e;
     archive_create_err := archive_create_err e;
     archive_copy_err := archive_copy_err e; rename_err := rename_err e;
     gz_open_err := gz_open_err e; gz_create_err := gz_create_err e;
     gz_copy_err := gz_copy_err e; gz_close_err := gz_close_err e;
     get_open_err := get_open_err e; get_stat_err := get_stat_err e;
     hash_copy_err := hash_copy_err e |}.

(** No call of [compressWiki] returns an error. *)
Definition gz_calm (e : Env) : Prop :=
  gz_open_err e = false /\ gz_create_err e = false /\ gz_copy_err e = None.

(** No call of the read path fails. *)
Definition read_calm (e : Env) : Prop :=
  get_open_err e = false /\ get_stat_err e = false.

(** The request was answered, with this status. *)
Definition answered (st : Z) (o : Outcome) : Prop :=
  exists w, o = Responded w /\ Status w = st.

(** [calm stamp], but the rename of the upload onto the document fails. *)
Definition rename_fails (stamp : string) : Env :=
  {| now_formatted := stamp; tempfile_err := false; body_err := false;
     close_err := false; archive_open_err := false; archive_create_err := false;
     archive_copy_err := None; rename_err := true; gz_open_err := false;
     gz_create_err := false; gz_copy_err := None; gz_close_err := None;
     get_open_err := false; get_stat_err := false; hash_copy_err := false |}.

(** The server that start-up gives with --archive=false. *)
Definition server_plain : Server :=
  {| mu := {| readerCount := 0; writerWaiting := false |};
     etag := etagOf v1;
     fileName := "index.html";
     archiveDirName := "old";
     archiveFormat := "2006-01-02-15-04-05.000.html";
     isArchive := false;
     isCompress := false |}.

Definition reqOptions : Request :=
  {| Method := MethodOptions; URLPath := "/"; ReqHeader := ∅; Body := [] |}.

(** * Properties *)

(** ** The hash and its rendering *)

Example md5_empty :
  Hex.EncodeToString (MD5.sum []) = "d41d8cd98f00b204e9800998ecf8427e"%string.
Proof. vm_compute. reflexivity. Qed.

Example md5_abc :
  Hex.EncodeToString (MD5.sum (bytes_of "abc")) = "900150983cd24fb0d6963f7d28e17f72"%string.
Proof. vm_compute. reflexivity. Qed.

Example md5_two_blocks :
  Hex.EncodeToString (MD5.sum (repeat x61 64)) = "014842d480b571495a4a0363793f7367"%string.
Proof. vm_compute. reflexivity. Qed.

Example md5_pad_boundary :
  Hex.EncodeToString (MD5.sum (repeat x61 56)) = "3b0c8ac703f828b04c6c197006d17218"%string.
Proof. vm_compute. reflexivity. Qed.

Lemma md5_sum_length data : length (MD5.sum data) = 16%nat.
Proof.
  unfold MD5.sum.
  destruct (fold_left MD5.block _ MD5.init) as [a b c d].
  reflexivity.
Qed.

Lemma hex_digits_of_byte (b : byte) :
  lower_hex_digit (Hex.digit (Z.shiftr (MD5.Z_of_byte b) 4)) = true /\
  lower_hex_digit (Hex.digit (Z.land (MD5.Z_of_byte b) 0x0f)) = true.
Proof. destruct b; split; vm_compute; reflexivity. Qed.

Lemma hex_lower (src : list byte) :
  string_forallb lower_hex_digit (Hex.EncodeToString src) = true.
Proof.
  induction src as [|b src IH]; [reflexivity|].
  cbn [Hex.EncodeToString string_forallb].
  destruct (hex_digits_of_byte b) as [Hhi Hlo].
  rewrite Hhi, Hlo, IH. reflexivity.
Qed.

Lemma hex_length (src : list byte) :
  String.length (Hex.EncodeToString src) = (2 * length src)%nat.
Proof. induction src as [|b src IH]; cbn; [reflexivity | rewrite IH; lia]. Qed.

(** ** Strings and paths *)

Lemma append_length (a b : string) :
  String.length (a +:+ b) = (String.length a + String.length b)%nat.
Proof. induction a as [|c a IH]; simpl; [reflexivity | rewrite IH; reflexivity]. Qed.

Lemma append_ne_self (a b : string) : b <> ""%string -> a +:+ b <> a.
Proof.
  intros Hb Heq. apply (f_equal String.length) in Heq.
  rewrite append_length in Heq.
  destruct b; [congruence | simpl in Heq; lia].
Qed.

Lemma append_assoc (a b c : string) : (a +:+ b) +:+ c = a +:+ (b +:+ c).
Proof.
  induction a as [|x a IH]; [reflexivity|].
  change (String x ((a +:+ b) +:+ c) = String x (a +:+ (b +:+ c))).
  rewrite IH. reflexivity.
Qed.

Lemma append_empty_r (a : string) : a +:+ "" = a.
Proof.
  induction a as [|x a IH]; [reflexivity|].
  change (String x (a +:+ "") = String x a). rewrite IH. reflexivity.
Qed.

Lemma prefix_append (p x : string) : String.prefix p (p +:+ x) = true.
Proof.
  induction p as [|c p IH].
  - destruct x; reflexivity.
  - change (String.prefix (String c p) (String c (p +:+ x)) = true).
    cbn [String.prefix]. destruct (ascii_dec c c); [exact IH | congruence].
Qed.

Lemma gzPath_ne_fileName (s : Server) : gzPathOf s <> fileName s.
Proof. unfold gzPathOf. apply append_ne_self. discriminate. Qed.

Lemma check_spec (v t : string) :
  negb (String.eqb v "") && negb (String.eqb v t) = true <-> v <> ""%string /\ v <> t.
Proof.
  rewrite andb_true_iff, !negb_true_iff, !String.eqb_neq. reflexivity.
Qed.

Lemma check_pass (v t : string) :
  v = ""%string \/ v = t -> negb (String.eqb v "") && negb (String.eqb v t) = false.
Proof.
  intros [->| ->].
  - reflexivity.
  - rewrite String.eqb_refl, andb_false_r. reflexivity.
Qed.

(** ** What the two copying helpers touch *)

Lemma archiveWiki_other (s : Server) (e : Env) (fs : FS) (p : string) :
  p <> archivePathOf s e -> (archiveWiki s e fs).1 !! p = fs !! p.
Proof.
  intros Hp. unfold archiveWiki, os_Open, os_Create.
  destruct (isArchive s); cbn; [|reflexivity].
  destruct (archive_open_err e); cbn; [reflexivity|].
  destruct (fs !! fileName s); cbn; [|reflexivity].
  destruct (archive_create_err e); cbn; [reflexivity|].
  destruct (archive_copy_err e); cbn; rewrite !lookup_insert_ne by congruence; reflexivity.
Qed.

Lemma archiveWiki_off (s : Server) (e : Env) (fs : FS) :
  isArchive s = false -> archiveWiki s e fs = (fs, None).
Proof. intros H. unfold archiveWiki. rewrite H. reflexivity. Qed.

Lemma archiveWiki_ok (s : Server) (e : Env) (fs : FS) (doc : list byte) :
  isArchive s = true -> fs !! fileName s = Some doc ->
  archive_open_err e = false -> archive_create_err e = false ->
  archive_copy_err e = None ->
  archiveWiki s e fs =
    (<[archivePathOf s e := default [] (<[archivePathOf s e := []]> fs !! fileName s)]>
       (<[archivePathOf s e := []]> fs), None).
Proof.
  intros Ha Hd H1 H2 H3. unfold archiveWiki, os_Open, os_Create.
  rewrite Ha, H1, Hd, H2, H3. reflexivity.
Qed.

Lemma classic_staged (e : Env) : staged_ok e \/ ~ staged_ok e.
Proof.
  unfold staged_ok.
  destruct (tempfile_err e), (body_err e), (close_err e);
    (left; repeat split; reflexivity) || (right; intros (?&?&?); discriminate).
Qed.

Lemma classic_token (r : Request) (s : Server) :
  token_ok r s \/
  (Get headerIfMatch (ReqHeader r) <> ""%string /\ Get headerIfMatch (ReqHeader r) <> etag s).
Proof.
  unfold token_ok.
  destruct (String.eqb_spec (Get headerIfMatch (ReqHeader r)) ""); [tauto|].
  destruct (String.eqb_spec (Get headerIfMatch (ReqHeader r)) (etag s)); tauto.
Qed.

Section Handlers.
Context {codec : Gzip} {net : NetHTTP}.

Lemma compressWiki_other (s : Server) (e : Env) (fs : FS) (p : string) :
  p <> gzPathOf s -> (compressWiki s e fs).1 !! p = fs !! p.
Proof.
  intros Hp. unfold compressWiki, os_Open, os_Create.
  destruct (isCompress s); cbn; [|reflexivity].
  destruct (gz_open_err e); cbn; [reflexivity|].
  destruct (fs !! fileName s); cbn; [|reflexivity].
  destruct (gz_create_err e); cbn; [reflexivity|].
  destruct (gz_copy_err e); cbn; [rewrite !lookup_insert_ne by congruence; reflexivity|].
  destruct (gz_close_err e); cbn; rewrite !lookup_insert_ne by congruence; reflexivity.
Qed.

Lemma compressWiki_off (s : Server) (e : Env) (fs : FS) :
  isCompress s = false -> compressWiki s e fs = (fs, None).
Proof. intros H. unfold compressWiki. rewrite H. reflexivity. Qed.

(** A run of [compressWiki] that returns nil and whose writer closed well
    leaves the compressed form of the document in the variant. *)
Lemma compressWiki_ok (s : Server) (e : Env) (fs fs' : FS) (doc : list byte) :
  isCompress s = true -> fs !! fileName s = Some doc ->
  compressWiki s e fs = (fs', None) -> gz_close_err e = None ->
  fs' !! gzPathOf s = Some (gzip_best doc).
Proof.
  intros Hc Hd Hrun Hclose. unfold compressWiki, os_Open, os_Create in Hrun.
  rewrite Hc in Hrun. cbn in Hrun.
  destruct (gz_open_err e); [discriminate|].
  rewrite Hd in Hrun.
  destruct (gz_create_err e); [discriminate|].
  destruct (gz_copy_err e); [discriminate|].
  rewrite Hclose in Hrun. injection Hrun as <-.
  rewrite lookup_insert_eq, lookup_insert_ne by (apply gzPath_ne_fileName).
  rewrite Hd. reflexivity.
Qed.

(** With no failing call, [compressWiki] returns nil. *)
Lemma compressWiki_calm (s : Server) (e : Env) (fs : FS) :
  is_Some (fs !! fileName s) ->
  gz_open_err e = false -> gz_create_err e = false -> gz_copy_err e = None ->
  (compressWiki s e fs).2 = None.
Proof.
  intros [doc Hd] H1 H2 H3. unfold compressWiki, os_Open, os_Create.
  destruct (isCompress s); cbn; [|reflexivity].
  rewrite H1, Hd, H2, H3. destruct (gz_close_err e); reflexivity.
Qed.

Lemma handlePutLocked_same_config e r staged digest s fs :
  same_config s (handlePutLocked e r staged digest s fs).1.1.
Proof.
  unfold handlePutLocked.
  destruct (negb _ && negb _); [repeat split|].
  destruct (archiveWiki s e fs) as [fs1 [err|]]; [repeat split|].
  destruct (rename_err e); [repeat split|].
  destruct (compressWiki s e _) as [fs3 [err|]]; repeat split.
Qed.

(** The check rejects: nothing is touched. *)
Lemma handlePutLocked_conflict e r staged digest s fs :
  Get headerIfMatch (ReqHeader r) <> ""%string ->
  Get headerIfMatch (ReqHeader r) <> etag s ->
  handlePutLocked e r staged digest s fs =
    (s, fs, {| Status := StatusPreconditionFailed; RespHeader := ∅; RespBody := [] |}).
Proof.
  intros H1 H2. unfold handlePutLocked.
  rewrite (proj2 (check_spec _ _) (conj H1 H2)). reflexivity.
Qed.

(** The statuses the critical section can answer. *)
Lemma handlePutLocked_status e r staged digest s fs :
  let w := (handlePutLocked e r staged digest s fs).2 in
  (Status w = StatusPreconditionFailed /\
     Get headerIfMatch (ReqHeader r) <> ""%string /\
     Get headerIfMatch (ReqHeader r) <> etag s) \/
  (Status w = StatusInternalServerError /\ token_ok r s) \/
  (Status w = StatusOK /\ token_ok r s).
Proof.
  unfold handlePutLocked, token_ok.
  destruct (negb _ && negb _) eqn:Hc.
  - left. apply check_spec in Hc. cbn. tauto.
  - assert (Hok : Get headerIfMatch (ReqHeader r) = ""%string \/
                  Get headerIfMatch (ReqHeader r) = etag s).
    { apply andb_false_iff in Hc as [Hc|Hc]; apply negb_false_iff, String.eqb_eq in Hc; tauto. }
    destruct (archiveWiki s e fs) as [fs1 [err|]]; [right; left; cbn; tauto|].
    destruct (rename_err e); [right; left; cbn; tauto|].
    destruct (compressWiki s e _) as [fs3 [err|]]; cbn; tauto.
Qed.

Lemma handlePut_reaches_check e r s fs :
  staged_ok e -> Lock (mu s) = true ->
  handlePut e r s fs =
    (let '(s', fs', w) := handlePutLocked e r (Body r) (MD5.sum (Body r)) s fs in
     (s', fs', Responded w)).
Proof.
  intros (H1 & H2 & H3) HL. unfold handlePut. rewrite H1, H2, H3, HL. reflexivity.
Qed.

(** Whatever happens before the critical section leaves the files and the
    ETag alone. *)
Lemma handlePut_before_check e r s fs :
  ~ (staged_ok e /\ Lock (mu s) = true) ->
  let '(s', fs', o) := handlePut e r s fs in
  fs' = fs /\ etag s' = etag s /\ same_config s s' /\
  (o = Blocked \/ o = respond StatusInternalServerError ∅ []) /\
  (~ staged_ok e -> s' = s /\ o = respond StatusInternalServerError ∅ []) /\
  (staged_ok e -> o = Blocked).
Proof.
  unfold staged_ok, handlePut. intros Hn.
  destruct (tempfile_err e); [cbn; repeat split; auto; intros (?&?&?); discriminate|].
  destruct (body_err e); [cbn; repeat split; auto; intros (?&?&?); discriminate|].
  destruct (close_err e); [cbn; repeat split; auto; intros (?&?&?); discriminate|].
  destruct (Lock (mu s)); [tauto|].
  cbn. repeat split; auto; exfalso; tauto.
Qed.

(** ** The conditional write *)

(** A PUT is answered 412 exactly when it reaches the check with a
    non-empty If-Match that is not the stored ETag. *)
Lemma handlePut_conflict_iff e r s fs :
  (handlePut e r s fs).2 = respond StatusPreconditionFailed ∅ [] <->
  staged_ok e /\ Lock (mu s) = true /\
  Get headerIfMatch (ReqHeader r) <> ""%string /\
  Get headerIfMatch (ReqHeader r) <> etag s.
Proof.
  split.
  - intros Hout.
    destruct (classic_staged e) as [Hs | Hs]; [destruct (Lock (mu s)) eqn:HL|].
    + rewrite handlePut_reaches_check in Hout by assumption.
      pose proof (handlePutLocked_status e r (Body r) (MD5.sum (Body r)) s fs) as Hst.
      destruct (handlePutLocked _ _ _ _ _ _) as [[s' fs'] w]. cbn in Hout, Hst.
      injection Hout as ->.
      destruct Hst as [(_ & H1 & H2) | [(H & _) | (H & _)]]; [tauto | discriminate..].
    + assert (Hn : ~ (staged_ok e /\ Lock (mu s) = true))
        by (rewrite HL; intros [_ ?]; discriminate).
      pose proof (handlePut_before_check e r s fs Hn) as Hb.
      destruct (handlePut e r s fs) as [[s' fs'] o]. cbn in Hout.
      destruct Hb as (_ & _ & _ & [-> | ->] & _); discriminate.
    + assert (Hn : ~ (staged_ok e /\ Lock (mu s) = true)) by tauto.
      pose proof (handlePut_before_check e r s fs Hn) as Hb.
      destruct (handlePut e r s fs) as [[s' fs'] o]. cbn in Hout.
      destruct Hb as (_ & _ & _ & [-> | ->] & _); discriminate.
  - intros (Hs & HL & H1 & H2).
    rewrite handlePut_reaches_check by assumption.
    rewrite handlePutLocked_conflict by assumption. reflexivity.
Qed.

(** C10: the check of [handlePut] is plain string equality with the stored
    quoted token.  The critical section answers 412 exactly when the
    If-Match value is non-empty and not the stored ETag, character for
    character, and then touches nothing; so the bare hex digest, a weak
    validator, a list of tokens and the star are all rejected.  For the
    handler as a whole: a PUT is answered 412 exactly when it reaches that
    check with such a value. *)
Theorem if_match_is_exact_string_equality e r staged digest s fs :
  let v := Get headerIfMatch (ReqHeader r) in
  let out := handlePutLocked e r staged digest s fs in
  (Status out.2 = StatusPreconditionFailed <-> v <> ""%string /\ v <> etag s) /\
  (v <> ""%string -> v <> etag s -> out.1 = (s, fs)) /\
  (forall data, etag s = etagOf data ->
     v = Hex.EncodeToString (MD5.sum data) \/
     v = "W/" +:+ etagOf data \/
     v = etagOf data +:+ ", " +:+ etagOf data \/
     v = "*"%string ->
     Status out.2 = StatusPreconditionFailed) /\
  ((handlePut e r s fs).2 = respond StatusPreconditionFailed ∅ [] <->
   staged_ok e /\ Lock (mu s) = true /\ v <> ""%string /\ v <> etag s).
Proof.
  intros v out.
  assert (Hiff : Status out.2 = StatusPreconditionFailed <-> v <> ""%string /\ v <> etag s).
  { split.
    - intros Hst. destruct (handlePutLocked_status e r staged digest s fs)
        as [(_ & H1 & H2) | [(H & _) | (H & _)]]; [tauto| |];
        fold out in H; rewrite Hst in H; discriminate.
    - intros [H1 H2]. unfold out.
      rewrite handlePutLocked_conflict by assumption. reflexivity. }
  split; [exact Hiff|]. split; [|split; [|apply handlePut_conflict_iff]].
  - intros H1 H2. unfold out. rewrite handlePutLocked_conflict by assumption. reflexivity.
  - intros data Het Hv. apply Hiff.
    assert (Hlen : String.length (etagOf data) = 34%nat).
    { unfold etagOf. rewrite !append_length, hex_length, md5_sum_length. reflexivity. }
    assert (Hhex : String.length (Hex.EncodeToString (MD5.sum data)) = 32%nat).
    { rewrite hex_length, md5_sum_length. reflexivity. }
    rewrite Het.
    destruct Hv as [-> | [-> | [-> | ->]]]; split; intros Heq;
      apply (f_equal String.length) in Heq;
      rewrite ?append_length, ?Hlen, ?Hhex in Heq; simpl in Heq; lia.
Qed.

(** C2, as the code has it: a PUT whose non-empty If-Match differs from the
    current ETag never changes the live document, the ETag, the archive
    directory or any other file.  It is answered 412 when the upload was
    staged and the lock was granted; a failure while staging is answered
    500 before the tokens are compared, and a lock that is never granted
    leaves the request without an answer. *)
Theorem put_conflict_leaves_all_unchanged e r s fs :
  Get headerIfMatch (ReqHeader r) <> ""%string ->
  Get headerIfMatch (ReqHeader r) <> etag s ->
  let '(s', fs', o) := handlePut e r s fs in
  fs' = fs /\ fs' !! fileName s' = fs !! fileName s /\ etag s' = etag s /\
  archiveEntries s' fs' = archiveEntries s fs /\
  (staged_ok e -> Lock (mu s) = true ->
     s' = s /\ o = respond StatusPreconditionFailed ∅ []) /\
  (~ staged_ok e -> s' = s /\ o = respond StatusInternalServerError ∅ []) /\
  (staged_ok e -> Lock (mu s) = false -> o = Blocked).
Proof.
  intros H1 H2.
  destruct (classic_staged e) as [Hs | Hs]; [destruct (Lock (mu s)) eqn:HL|].
  - rewrite handlePut_reaches_check by assumption.
    rewrite handlePutLocked_conflict by assumption.
    repeat split; auto; try congruence.
  - assert (Hn : ~ (staged_ok e /\ Lock (mu s) = true))
      by (rewrite HL; intros [_ ?]; discriminate).
    pose proof (handlePut_before_check e r s fs Hn) as Hb.
    destruct (handlePut e r s fs) as [[s' fs'] o].
    destruct Hb as (-> & He & (Hf & Hd & _) & _ & _ & Hblk).
    unfold archiveEntries. rewrite Hf, Hd.
    repeat split; auto; try discriminate; tauto.
  - assert (Hn : ~ (staged_ok e /\ Lock (mu s) = true)) by tauto.
    pose proof (handlePut_before_check e r s fs Hn) as Hb.
    destruct (handlePut e r s fs) as [[s' fs'] o].
    destruct Hb as (-> & He & (Hf & Hd & _) & _ & Hfail & _).
    unfold archiveEntries. rewrite Hf, Hd.
    repeat split; auto; try tauto.
Qed.

(** ** The successful write *)

(** What a critical section that answers 200 has done. *)
Lemma handlePutLocked_committed e r staged digest s fs :
  let '(s', fs', w) := handlePutLocked e r staged digest s fs in
  Status w = StatusOK ->
  s' = setEtagFromHash digest s /\
  w = {| Status := StatusOK; RespHeader := {[ headerEtag := etag s' ]}; RespBody := [] |} /\
  fs' !! fileName s = Some staged /\
  token_ok r s /\
  (archiveWiki s e fs).2 = None /\ rename_err e = false /\
  compressWiki s e (<[fileName s := staged]> (archiveWiki s e fs).1) = (fs', None).
Proof.
  pose proof (handlePutLocked_status e r staged digest s fs) as Hst.
  unfold handlePutLocked in *.
  destruct (negb _ && negb _); [cbn; discriminate|].
  destruct (archiveWiki s e fs) as [fs1 [err|]]; [cbn; discriminate|].
  destruct (rename_err e); [cbn; discriminate|].
  pose proof (compressWiki_other s e (<[fileName s := staged]> fs1) (fileName s)
                (not_eq_sym (gzPath_ne_fileName s))) as Hdoc.
  destruct (compressWiki s e _) as [fs3 [err|]]; [cbn; discriminate|].
  cbn in *. intros _. rewrite lookup_insert_eq in Hdoc.
  repeat split; auto.
  destruct Hst as [(H & _) | [(H & _) | (_ & H)]]; [discriminate H| discriminate H| exact H].
Qed.

(** C4: a PUT that is answered 200 has left as ETag the md5 sum of the
    uploaded body, written as lowercase hexadecimal digits between two
    double quotes, and has sent that ETag in its response; the uploaded
    bytes are the live document, and the caller's token was absent or equal
    to the ETag held before. *)
Theorem put_success_fingerprint e r s fs :
  let '(s', fs', o) := handlePut e r s fs in
  forall w, o = Responded w -> Status w = StatusOK ->
    etag s' = dquote +:+ Hex.EncodeToString (MD5.sum (Body r)) +:+ dquote /\
    string_forallb lower_hex_digit (Hex.EncodeToString (MD5.sum (Body r))) = true /\
    String.length (Hex.EncodeToString (MD5.sum (Body r))) = 32%nat /\
    RespHeader w !! headerEtag = Some (etag s') /\
    fs' !! fileName s' = Some (Body r) /\
    token_ok r s.
Proof.
  destruct (classic_staged e) as [Hs | Hs]; [destruct (Lock (mu s)) eqn:HL|].
  - rewrite handlePut_reaches_check by assumption.
    pose proof (handlePutLocked_committed e r (Body r) (MD5.sum (Body r)) s fs) as Hc.
    destruct (handlePutLocked _ _ _ _ _ _) as [[s' fs'] w'].
    intros w [= <-] Hok.
    destruct (Hc Hok) as (-> & -> & Hdoc & Htok & _).
    cbn [RespHeader]. rewrite lookup_singleton_eq.
    repeat split; auto using hex_lower.
    rewrite hex_length, md5_sum_length. reflexivity.
  - assert (Hn : ~ (staged_ok e /\ Lock (mu s) = true))
      by (rewrite HL; intros [_ ?]; discriminate).
    pose proof (handlePut_before_check e r s fs Hn) as Hb.
    destruct (handlePut e r s fs) as [[s' fs'] o].
    destruct Hb as (_ & _ & _ & [-> | ->] & _); intros w [= <-]; discriminate.
  - assert (Hn : ~ (staged_ok e /\ Lock (mu s) = true)) by tauto.
    pose proof (handlePut_before_check e r s fs Hn) as Hb.
    destruct (handlePut e r s fs) as [[s' fs'] o].
    destruct Hb as (_ & _ & _ & [-> | ->] & _); intros w [= <-]; discriminate.
Qed.

(** The critical section when the token passes and no call fails. *)
Lemma handlePutLocked_calm e r staged digest s fs :
  token_ok r s -> no_failure e -> is_Some (fs !! fileName s) ->
  let '(s', fs', w) := handlePutLocked e r staged digest s fs in
  s' = setEtagFromHash digest s /\
  w = {| Status := StatusOK; RespHeader := {[ headerEtag := etag s' ]}; RespBody := [] |} /\
  fs' !! fileName s = Some staged.
Proof.
  intros Htok (_ & Ho & Hc & Hcp & Hr & Hzo & Hzc & Hzcp) [doc Hdoc].
  pose proof (handlePutLocked_committed e r staged digest s fs) as Hcm.
  unfold handlePutLocked in *. rewrite (check_pass _ _ Htok) in *.
  assert (Ha : (archiveWiki s e fs).2 = None).
  { destruct (isArchive s) eqn:Hia.
    - rewrite (archiveWiki_ok s e fs doc) by assumption. reflexivity.
    - rewrite archiveWiki_off by assumption. reflexivity. }
  destruct (archiveWiki s e fs) as [fs1 [err|]]; [discriminate Ha|].
  rewrite Hr in Hcm |- *.
  assert (Hz : (compressWiki s e (<[fileName s := staged]> fs1)).2 = None).
  { apply compressWiki_calm; auto. rewrite lookup_insert_eq. eauto. }
  destruct (compressWiki s e _) as [fs3 [err|]]; [discriminate Hz|].
  destruct (Hcm eq_refl) as (_ & _ & Hd & _). auto.
Qed.

(** C8: a PUT without If-Match, or with an empty one, is accepted whatever
    ETag the server holds, as long as no call fails on the way (the upload
    is staged, the lock is granted, the live document is there to be
    archived): the answer is 200 with the new ETag and the uploaded bytes
    are the live document. *)
Theorem put_without_token_accepted e r s fs :
  ReqHeader r !! headerIfMatch = None \/ ReqHeader r !! headerIfMatch = Some ""%string ->
  no_failure e -> Lock (mu s) = true -> is_Some (fs !! fileName s) ->
  let '(s', fs', o) := handlePut e r s fs in
  o = respond StatusOK {[ headerEtag := etagOf (Body r) ]} [] /\
  fs' !! fileName s' = Some (Body r) /\
  etag s' = etagOf (Body r).
Proof.
  intros Hh Hnf HL Hdoc.
  assert (Htok : token_ok r s).
  { left. unfold Get. destruct Hh as [-> | ->]; reflexivity. }
  pose proof (proj1 Hnf) as Hst.
  rewrite handlePut_reaches_check by assumption.
  pose proof (handlePutLocked_calm e r (Body r) (MD5.sum (Body r)) s fs Htok Hnf Hdoc) as Hc.
  destruct (handlePutLocked _ _ _ _ _ _) as [[s' fs'] w].
  destruct Hc as (-> & -> & Hd). repeat split; auto.
Qed.


(** ** Reading *)

(** A read that asks for gzip on a server that compresses. *)
Lemma handleGet_gzip e r s fs :
  isCompress s = true ->
  Contains (Get headerAcceptEncoding (ReqHeader r)) encodingGzip = true ->
  writerWaiting (mu s) = false ->
  handleGet e r s fs =
    match os_Open (get_open_err e) fs (gzPathOf s) with
    | None =>
        (set_mu {| readerCount := Datatypes.S (readerCount (mu s)); writerWaiting := false |} s,
         respond StatusInternalServerError {[ headerContentEncoding := encodingGzip ]} [])
    | Some z =>
        if get_stat_err e then
          (set_mu {| readerCount := Datatypes.S (readerCount (mu s)); writerWaiting := false |} s,
           respond StatusInternalServerError {[ headerContentEncoding := encodingGzip ]} [])
        else
          (set_mu {| readerCount := readerCount (mu s); writerWaiting := false |} s,
           Responded
             (ServeContent (ReqHeader r)
                (<[ headerEtag := etag s ]>
                   (<[ headerContentLength := pretty (Z.of_nat (length z)) ]>
                      {[ headerContentEncoding := encodingGzip ]})) z))
    end.
Proof.
  intros Hc Ha Hw. unfold handleGet, RLock, gzPathOf. rewrite Hw, Hc, Ha. cbn.
  destruct (os_Open _ _ _); [|reflexivity]. destruct (get_stat_err e); reflexivity.
Qed.

(** C7, as the code has it: a GET that accepts gzip on a server that
    compresses opens the compressed variant and nothing else.  When the
    variant cannot be opened, or its size cannot be read, the answer is 500
    with an empty body: the uncompressed document is not served instead.
    When it can, a request without conditional or range headers gets as
    body the variant as it is on disk, sent with the current ETag; and it
    decompresses to the live document whenever the disk is as a completed
    run of [compressWiki] on that document left it. *)
Theorem get_gzip_has_no_fallback e r s fs :
  isCompress s = true ->
  Contains (Get headerAcceptEncoding (ReqHeader r)) encodingGzip = true ->
  writerWaiting (mu s) = false ->
  let '(s', o) := handleGet e r s fs in
  (get_open_err e = true \/ fs !! gzPathOf s = None \/ get_stat_err e = true ->
     o = respond StatusInternalServerError {[ headerContentEncoding := encodingGzip ]} []) /\
  (forall z, get_open_err e = false -> fs !! gzPathOf s = Some z -> get_stat_err e = false ->
     plain (ReqHeader r) ->
     o = respond StatusOK
           (<[ headerEtag := etag s ]>
              (<[ headerContentLength := pretty (Z.of_nat (length z)) ]>
                 {[ headerContentEncoding := encodingGzip ]})) z /\
     forall e0 fs0 doc,
       compressWiki s e0 fs0 = (fs, None) -> gz_close_err e0 = None ->
       fs0 !! fileName s = Some doc ->
       fs !! fileName s = Some doc /\ gunzip z = Some doc).
Proof.
  intros Hc Ha Hw. rewrite handleGet_gzip by assumption. unfold os_Open.
  destruct (get_open_err e) eqn:Ho;
    [cbn; split; [reflexivity | intros; discriminate]|].
  destruct (fs !! gzPathOf s) as [z0|] eqn:Hz;
    [|cbn; split; [reflexivity | intros; discriminate]].
  destruct (get_stat_err e) eqn:Hst;
    [cbn; split; [reflexivity | intros; discriminate]|].
  cbn. split; [intros [?|[?|?]]; discriminate|].
  intros z _ [= <-] _ Hplain. split.
  { unfold respond. rewrite ServeContent_plain by exact Hplain. reflexivity. }
  intros e0 fs0 doc Hrun Hclose Hdoc.
  pose proof (compressWiki_ok s e0 fs0 fs doc Hc Hdoc Hrun Hclose) as Hgz.
  pose proof (compressWiki_other s e0 fs0 (fileName s)
                (not_eq_sym (gzPath_ne_fileName s))) as Hsame.
  rewrite Hrun in Hsame. cbn in Hsame.
  split; [congruence|].
  rewrite Hz in Hgz. injection Hgz as ->. apply gunzip_gzip.
Qed.

(** ** Start-up *)

Lemma newServer_started f d fmt a c e fs fs' s :
  newServer f d fmt a c e fs = (fs', Some s) ->
  exists doc,
    fs !! f = Some doc /\
    s = {| mu := {| readerCount := 0; writerWaiting := false |};
           etag := etagOf doc; fileName := f; archiveDirName := d;
           archiveFormat := fmt; isArchive := a; isCompress := a |} /\
    compressWiki s e fs = (fs', None).
Proof.
  unfold newServer, os_Open. cbn.
  destruct (get_open_err e); [discriminate|].
  destruct (fs !! f) as [doc|]; [|discriminate].
  destruct (hash_copy_err e); [discriminate|].
  destruct (compressWiki _ e fs) as [fs1 [err|]] eqn:Hz; [discriminate|].
  intros [= <- <-]. exists doc. repeat split; auto.
Qed.

(** [newServer] does not look at its [isCompress] argument. *)
Lemma newServer_ignores_isCompress f d fmt a c c' e fs :
  newServer f d fmt a c e fs = newServer f d fmt a c' e fs.
Proof. reflexivity. Qed.

(** ** Which requests write files *)

Lemma ServeHTTP_reads_only e r s fs :
  Method r <> MethodPut \/ URLPath r <> "/"%string ->
  (ServeHTTP e r s fs).1.2 = fs.
Proof.
  intros H. unfold ServeHTTP.
  destruct (String.eqb_spec (URLPath r) "/") as [Hp|Hp]; cbn; [|reflexivity].
  destruct (String.eqb (Method r) MethodHead); [destruct (handleHead s); reflexivity|].
  destruct (String.eqb (Method r) MethodOptions); [reflexivity|].
  destruct (String.eqb (Method r) MethodGet); [destruct (handleGet e r s fs); reflexivity|].
  destruct (String.eqb_spec (Method r) MethodPut) as [Hm|Hm]; [tauto|reflexivity].
Qed.

Lemma ServeHTTP_put e r s fs :
  Method r = MethodPut -> URLPath r = "/"%string ->
  ServeHTTP e r s fs = handlePut e r s fs.
Proof. intros Hm Hp. unfold ServeHTTP. rewrite Hm, Hp. reflexivity. Qed.

(** A PUT that is not let into the critical section, or is rejected there,
    leaves every file as it was. *)
Lemma handlePut_no_write e r s fs :
  let '(s', fs', o) := handlePut e r s fs in
  o = Blocked \/ o = respond StatusPreconditionFailed ∅ [] \/ ~ staged_ok e ->
  fs' = fs.
Proof.
  destruct (classic_staged e) as [Hs | Hs]; [destruct (Lock (mu s)) eqn:HL|].
  - rewrite handlePut_reaches_check by assumption.
    pose proof (handlePutLocked_status e r (Body r) (MD5.sum (Body r)) s fs) as Hst.
    destruct (classic_token r s) as [Htok | [H1 H2]].
    + destruct (handlePutLocked _ _ _ _ _ _) as [[s' fs'] w]. cbn in Hst.
      intros [Hb | [[= ->] | Hn]]; [discriminate| |tauto].
      unfold token_ok in Htok.
      destruct Hst as [(_ & ? & ?) | [(? & _) | (? & _)]]; [tauto|discriminate..].
    + rewrite handlePutLocked_conflict by assumption. reflexivity.
  - assert (Hn : ~ (staged_ok e /\ Lock (mu s) = true))
      by (rewrite HL; intros [_ ?]; discriminate).
    pose proof (handlePut_before_check e r s fs Hn) as Hb.
    destruct (handlePut e r s fs) as [[s' fs'] o]. intros _. apply Hb.
  - assert (Hn : ~ (staged_ok e /\ Lock (mu s) = true)) by tauto.
    pose proof (handlePut_before_check e r s fs Hn) as Hb.
    destruct (handlePut e r s fs) as [[s' fs'] o]. intros _. apply Hb.
Qed.

(** The variant changes only in a PUT that gets as far as [compressWiki]
    (unless the archive file is given the very name of the variant). *)
Lemma handlePut_variant_changed e r s fs :
  archivePathOf s e <> gzPathOf s ->
  let '(s', fs', o) := handlePut e r s fs in
  fs' !! gzPathOf s <> fs !! gzPathOf s ->
  isCompress s = true /\ staged_ok e /\ token_ok r s /\
  (archiveWiki s e fs).2 = None /\ rename_err e = false.
Proof.
  intros Hne.
  pose proof (handlePut_no_write e r s fs) as Hnw.
  destruct (classic_staged e) as [Hs | Hs];
    [| destruct (handlePut e r s fs) as [[s' fs'] o]; intros Hch; exfalso;
       apply Hch; rewrite Hnw by tauto; reflexivity].
  destruct (Lock (mu s)) eqn:HL.
  - rewrite handlePut_reaches_check in * by assumption. clear Hnw.
    destruct (classic_token r s) as [Htok | [H1 H2]];
      [| rewrite handlePutLocked_conflict by assumption; intros Hch; congruence].
    unfold handlePutLocked. rewrite (check_pass _ _ Htok).
    pose proof (archiveWiki_other s e fs (gzPathOf s) (not_eq_sym Hne)) as Ha.
    destruct (archiveWiki s e fs) as [fs1 [err|]]; cbn in Ha; [intros Hch; congruence|].
    destruct (rename_err e); [intros Hch; congruence|].
    destruct (isCompress s) eqn:Hc.
    + destruct (compressWiki s e _) as [fs3 [err|]]; intros _; repeat split; auto; apply Hs.
    + rewrite compressWiki_off by assumption. intros Hch. exfalso. apply Hch.
      rewrite lookup_insert_ne by (apply not_eq_sym, gzPath_ne_fileName). exact Ha.
  - assert (Hn : ~ (staged_ok e /\ Lock (mu s) = true))
      by (rewrite HL; intros [_ ?]; discriminate).
    pose proof (handlePut_before_check e r s fs Hn) as Hb.
    destruct (handlePut e r s fs) as [[s' fs'] o].
    destruct Hb as (-> & _). intros Hch. congruence.
Qed.


(** ** The archive *)

Lemma archiveEntries_insert_in (s : Server) (fs : FS) (p : string) (c : list byte) :
  String.prefix (archiveDirName s +:+ "/") p = true ->
  archiveEntries s (<[p := c]> fs) = <[p := c]> (archiveEntries s fs).
Proof. intros Hp. unfold archiveEntries. apply map_filter_insert_True. exact Hp. Qed.

Lemma archiveEntries_insert_out (s : Server) (fs : FS) (p : string) (c : list byte) :
  String.prefix (archiveDirName s +:+ "/") p = false ->
  archiveEntries s (<[p := c]> fs) = archiveEntries s fs.
Proof.
  intros Hp. unfold archiveEntries. apply map_filter_insert_not.
  intros y. cbn. rewrite Hp. discriminate.
Qed.

Lemma archivePath_in_archive (s : Server) (e : Env) :
  String.prefix (archiveDirName s +:+ "/") (archivePathOf s e) = true.
Proof.
  unfold archivePathOf. rewrite <- append_assoc. apply prefix_append.
Qed.

Lemma archiveWiki_success (s : Server) (e : Env) (fs : FS) :
  isArchive s = true -> (archiveWiki s e fs).2 = None ->
  exists doc, fs !! fileName s = Some doc /\
  (archiveWiki s e fs).1 =
    <[archivePathOf s e := default [] (<[archivePathOf s e := []]> fs !! fileName s)]>
      (<[archivePathOf s e := []]> fs).
Proof.
  intros Ha. unfold archiveWiki, os_Open, os_Create. rewrite Ha. cbn.
  destruct (archive_open_err e); [discriminate|].
  destruct (fs !! fileName s) as [doc|]; [|discriminate].
  destruct (archive_create_err e); [discriminate|].
  destruct (archive_copy_err e); [discriminate|].
  intros _. exists doc. split; reflexivity.
Qed.

Lemma compressWiki_archiveEntries (s : Server) (e : Env) (fs : FS) :
  outside_archive s ->
  archiveEntries s (compressWiki s e fs).1 = archiveEntries s fs.
Proof.
  intros [_ Hgz]. unfold compressWiki, os_Open, os_Create.
  destruct (isCompress s); cbn; [|reflexivity].
  destruct (gz_open_err e); cbn; [reflexivity|].
  destruct (fs !! fileName s); cbn; [|reflexivity].
  destruct (gz_create_err e); cbn; [reflexivity|].
  destruct (gz_copy_err e); cbn; [rewrite !archiveEntries_insert_out by assumption; reflexivity|].
  destruct (gz_close_err e); cbn; rewrite !archiveEntries_insert_out by assumption; reflexivity.
Qed.

(** A PUT that is answered 200 on a server that archives adds to the
    archive directory one file, which holds the document it replaced. *)
Lemma handlePut_archives e r s fs :
  isArchive s = true -> outside_archive s ->
  let '(s', fs', o) := handlePut e r s fs in
  succeeded o ->
  s' = setEtagFromHash (MD5.sum (Body r)) s /\
  is_Some (fs !! fileName s) /\
  archiveEntries s fs' =
    <[archivePathOf s e := default [] (fs !! fileName s)]> (archiveEntries s fs).
Proof.
  intros Ha Hout.
  destruct (classic_staged e) as [Hs | Hs]; [destruct (Lock (mu s)) eqn:HL|].
  - rewrite handlePut_reaches_check by assumption.
    pose proof (handlePutLocked_committed e r (Body r) (MD5.sum (Body r)) s fs) as Hcm.
    destruct (handlePutLocked _ _ _ _ _ _) as [[s' fs'] w'].
    intros (w & [= <-] & Hok).
    destruct (Hcm Hok) as (-> & _ & _ & _ & Harch & _ & Hrun).
    destruct (archiveWiki_success s e fs Ha Harch) as (doc & Hdoc & Hfs1).
    split; [reflexivity|]. split; [eauto|].
    pose proof (compressWiki_archiveEntries s e
                  (<[fileName s := Body r]> (archiveWiki s e fs).1) Hout) as Hz.
    rewrite Hrun in Hz. cbn in Hz. rewrite Hz.
    rewrite archiveEntries_insert_out by apply Hout.
    rewrite Hfs1.
    assert (Hne : archivePathOf s e <> fileName s).
    { intros Heq. pose proof (archivePath_in_archive s e) as Hin.
      rewrite Heq in Hin. destruct Hout as [Hf _]. congruence. }
    rewrite lookup_insert_ne by exact Hne.
    rewrite !archiveEntries_insert_in by apply archivePath_in_archive.
    apply insert_insert_eq.
  - assert (Hn : ~ (staged_ok e /\ Lock (mu s) = true))
      by (rewrite HL; intros [_ ?]; discriminate).
    pose proof (handlePut_before_check e r s fs Hn) as Hb.
    destruct (handlePut e r s fs) as [[s' fs'] o].
    destruct Hb as (_ & _ & _ & [-> | ->] & _); intros (w & [= <-] & ?); discriminate.
  - assert (Hn : ~ (staged_ok e /\ Lock (mu s) = true)) by tauto.
    pose proof (handlePut_before_check e r s fs Hn) as Hb.
    destruct (handlePut e r s fs) as [[s' fs'] o].
    destruct Hb as (_ & _ & _ & [-> | ->] & _); intros (w & [= <-] & ?); discriminate.
Qed.

(** A PUT writes the live document, its compressed variant and the archive
    file of its own time stamp, and no other file. *)
Lemma handlePut_other e r s fs (p : string) :
  p <> fileName s -> p <> gzPathOf s -> p <> archivePathOf s e ->
  (handlePut e r s fs).1.2 !! p = fs !! p.
Proof.
  intros Hf Hz Ha. unfold handlePut.
  destruct (tempfile_err e); [reflexivity|].
  destruct (body_err e); [reflexivity|].
  destruct (close_err e); [reflexivity|].
  destruct (Lock (mu s)); [|reflexivity].
  unfold handlePutLocked.
  destruct (negb _ && negb _); [reflexivity|].
  pose proof (archiveWiki_other s e fs p Ha) as H1.
  destruct (archiveWiki s e fs) as [fs1 [err|]]; cbn in H1; [exact H1|].
  destruct (rename_err e); [exact H1|].
  pose proof (compressWiki_other s e (<[fileName s := Body r]> fs1) p Hz) as H2.
  rewrite lookup_insert_ne in H2 by congruence.
  destruct (compressWiki s e _) as [fs3 [err|]]; cbn in *; congruence.
Qed.

Lemma handlePut_same_config e r s fs : same_config s (handlePut e r s fs).1.1.
Proof.
  unfold handlePut.
  destruct (tempfile_err e); [repeat split|].
  destruct (body_err e); [repeat split|].
  destruct (close_err e); [repeat split|].
  destruct (Lock (mu s)); [|repeat split].
  pose proof (handlePutLocked_same_config e r (Body r) (MD5.sum (Body r)) s fs) as H.
  destruct (handlePutLocked _ _ _ _ _ _) as [[s' fs'] w]. exact H.
Qed.

Lemma ServeHTTP_same_config e r s fs : same_config s (ServeHTTP e r s fs).1.1.
Proof.
  unfold ServeHTTP.
  destruct (negb _); [repeat split|].
  destruct (String.eqb (Method r) MethodHead).
  { unfold handleHead. destruct (RLock (mu s)); repeat split. }
  destruct (String.eqb (Method r) MethodOptions); [repeat split|].
  destruct (String.eqb (Method r) MethodGet).
  { unfold handleGet. destruct (RLock (mu s)); [|repeat split].
    destruct (os_Open _ _ _); [|repeat split].
    destruct (get_stat_err e); repeat split. }
  destruct (String.eqb (Method r) MethodPut); [apply handlePut_same_config | repeat split].
Qed.

(** No request removes a file. *)
Lemma ServeHTTP_other e r s fs (p : string) :
  p <> fileName s -> p <> gzPathOf s -> p <> archivePathOf s e ->
  (ServeHTTP e r s fs).1.2 !! p = fs !! p.
Proof.
  intros Hf Hz Ha.
  destruct (String.eqb_spec (Method r) MethodPut) as [Hm|Hm];
    [destruct (String.eqb_spec (URLPath r) "/") as [Hp|Hp]|].
  - rewrite ServeHTTP_put by assumption. apply handlePut_other; assumption.
  - rewrite ServeHTTP_reads_only by tauto. reflexivity.
  - rewrite ServeHTTP_reads_only by tauto. reflexivity.
Qed.

Lemma archiveEntries_same_dir (s s' : Server) (fs : FS) :
  archiveDirName s' = archiveDirName s -> archiveEntries s' fs = archiveEntries s fs.
Proof. intros H. unfold archiveEntries. rewrite H. reflexivity. Qed.

(** A file of the archive directory stays as it is through every request,
    unless the request is a PUT whose time stamp formats to its name. *)
Lemma ServeHTTP_entry_kept e r s fs (p : string) (c : list byte) :
  outside_archive s ->
  archiveEntries s fs !! p = Some c -> p <> archivePathOf s e ->
  archiveEntries (ServeHTTP e r s fs).1.1 (ServeHTTP e r s fs).1.2 !! p = Some c.
Proof.
  intros [Hf Hz] Hin Hne.
  rewrite (archiveEntries_same_dir s) by apply ServeHTTP_same_config.
  unfold archiveEntries in *.
  apply map_lookup_filter_Some in Hin as [Hl Hp]. cbn in Hp.
  apply map_lookup_filter_Some. split; [|exact Hp].
  rewrite ServeHTTP_other; [exact Hl | | | exact Hne]; intros ->; congruence.
Qed.

(** The archive after a run of successful PUTs with distinct time stamps. *)
Lemma serve_archive (reqs : list (Env * Request)) :
  forall s fs s' fs' outs,
  isArchive s = true -> outside_archive s ->
  Forall (fun er => is_put er.2) reqs ->
  serve reqs s fs = (s', fs', outs) ->
  Forall succeeded outs ->
  NoDup ((fun er => now_formatted er.1) <$> reqs) ->
  archiveDirName s' = archiveDirName s /\
  (live_before reqs s fs).*1 =
    (fun er => archiveDirName s +:+ "/" +:+ now_formatted er.1) <$> reqs /\
  archiveEntries s fs' = list_to_map (live_before reqs s fs) ∪ archiveEntries s fs.
Proof.
  induction reqs as [|[e r] rest IH]; intros s fs s' fs' outs Ha Hout Hput Hrun Hok Hnd.
  - cbn in Hrun. injection Hrun as <- <- <-. cbn.
    rewrite (left_id_L ∅ (∪)). auto.
  - cbn [serve live_before] in *.
    apply Forall_cons in Hput as [[Hm Hp] Hput]. cbn in Hm, Hp.
    rewrite ServeHTTP_put in * by assumption.
    pose proof (handlePut_archives e r s fs Ha Hout) as Hstep.
    destruct (handlePut e r s fs) as [[s1 fs1] o].
    destruct (serve rest s1 fs1) as [[s2 fs2] os] eqn:Hrest.
    injection Hrun as <- <- <-.
    apply Forall_cons in Hok as [Ho Hok].
    destruct (Hstep Ho) as (-> & _ & Hent).
    rewrite fmap_cons in Hnd. apply NoDup_cons in Hnd as [Hfresh Hnd].
    destruct (IH (setEtagFromHash (MD5.sum (Body r)) s) fs1 s2 fs2 os
                Ha Hout Hput Hrest Hok Hnd) as (Hdir & Hkeys & Hmap).
    cbn in Hdir, Hkeys, Hmap.
    split; [exact Hdir|]. split.
    + rewrite fmap_cons. cbn. rewrite Hkeys. reflexivity.
    + change (archiveEntries (setEtagFromHash (MD5.sum (Body r)) s) fs2)
        with (archiveEntries s fs2) in Hmap.
      change (archiveEntries (setEtagFromHash (MD5.sum (Body r)) s) fs1)
        with (archiveEntries s fs1) in Hmap.
      rewrite Hmap, Hent, list_to_map_cons.
      rewrite <- insert_union_l. symmetry. apply insert_union_r.
      apply not_elem_of_list_to_map_1. rewrite Hkeys.
      intros Hin. apply Hfresh.
      apply list_elem_of_fmap in Hin as (er & Heq & Hin).
      apply list_elem_of_fmap. exists er. split; [|exact Hin].
      unfold archivePathOf in Heq. cbn in Heq.
      apply String.app_inj in Heq. apply String.app_inj in Heq. exact Heq.
Qed.

(** C5, as the code has it: on a server that archives, whose document and
    compressed variant are not kept in the archive directory, a run of N
    PUTs that are all answered 200 and whose time stamps format to N
    different names leaves, in an archive directory that was empty, exactly
    N files: for each PUT the file named after its time stamp, holding the
    document that was live just before that PUT.  And through any request
    a file of the archive directory keeps its content, unless the request
    is a PUT whose time stamp formats to the name of that file. *)
Theorem archive_keeps_replaced_documents (s : Server) :
  isArchive s = true -> outside_archive s ->
  (forall reqs fs s' fs' outs,
     Forall (fun er => is_put er.2) reqs ->
     serve reqs s fs = (s', fs', outs) ->
     Forall succeeded outs ->
     NoDup ((fun er => now_formatted er.1) <$> reqs) ->
     archiveEntries s fs = ∅ ->
     archiveEntries s' fs' = list_to_map (live_before reqs s fs) /\
     NoDup (live_before reqs s fs).*1 /\
     size (archiveEntries s' fs') = length reqs) /\
  (forall e r fs p c,
     archiveEntries s fs !! p = Some c -> p <> archivePathOf s e ->
     archiveEntries (ServeHTTP e r s fs).1.1 (ServeHTTP e r s fs).1.2 !! p = Some c).
Proof.
  intros Ha Hout. split.
  - intros reqs fs s' fs' outs Hput Hrun Hok Hnd Hempty.
    destruct (serve_archive reqs s fs s' fs' outs Ha Hout Hput Hrun Hok Hnd)
      as (Hdir & Hkeys & Hmap).
    rewrite (archiveEntries_same_dir s s') by exact Hdir.
    rewrite Hmap, Hempty, (right_id_L ∅ (∪)).
    assert (Hnd' : NoDup (live_before reqs s fs).*1).
    { rewrite Hkeys.
      replace ((fun er : Env * Request => archiveDirName s +:+ "/" +:+ now_formatted er.1) <$> reqs)
        with ((fun t => archiveDirName s +:+ "/" +:+ t) <$>
              ((fun er : Env * Request => now_formatted er.1) <$> reqs))
        by (rewrite <- list_fmap_compose; reflexivity).
      apply NoDup_fmap_2; [|exact Hnd].
      intros a b Hab. apply String.app_inj in Hab. apply String.app_inj in Hab. exact Hab. }
    split; [reflexivity|]. split; [exact Hnd'|].
    rewrite map_size_list_to_map by exact Hnd'.
    rewrite <- (length_fmap fst), Hkeys, length_fmap. reflexivity.
  - intros e r fs p c. apply ServeHTTP_entry_kept. exact Hout.
Qed.

(** ** The ETag and the live document *)

Lemma ServeHTTP_reads_etag e r s fs :
  Method r <> MethodPut \/ URLPath r <> "/"%string ->
  etag (ServeHTTP e r s fs).1.1 = etag s.
Proof.
  intros H. unfold ServeHTTP.
  destruct (String.eqb_spec (URLPath r) "/") as [Hp|Hp]; cbn; [|reflexivity].
  destruct (String.eqb (Method r) MethodHead).
  { unfold handleHead. destruct (RLock (mu s)); reflexivity. }
  destruct (String.eqb (Method r) MethodOptions); [reflexivity|].
  destruct (String.eqb (Method r) MethodGet).
  { unfold handleGet. destruct (RLock (mu s)); [|reflexivity].
    destruct (os_Open _ _ _); [|reflexivity].
    destruct (get_stat_err e); reflexivity. }
  destruct (String.eqb_spec (Method r) MethodPut) as [Hm|Hm]; [tauto|reflexivity].
Qed.

(** Start-up leaves the ETag of the document it has read. *)
Lemma newServer_consistent f d fmt a c e fs fs' s :
  newServer f d fmt a c e fs = (fs', Some s) -> consistent s fs'.
Proof.
  intros Hnew.
  destruct (newServer_started _ _ _ _ _ _ _ _ _ Hnew) as (doc & Hdoc & Hs & Hrun).
  assert (Hf : fileName s = f) by (rewrite Hs; reflexivity).
  exists doc. split; [|rewrite Hs; reflexivity].
  pose proof (compressWiki_other s e fs (fileName s)
                (not_eq_sym (gzPath_ne_fileName s))) as Ho.
  rewrite Hrun in Ho. cbn in Ho. congruence.
Qed.

(** Every request in which no call of [compressWiki] fails keeps the ETag
    equal to the one of the live document (the archive file not being
    given the name of the document). *)
Lemma ServeHTTP_consistent e r s fs :
  consistent s fs -> archivePathOf s e <> fileName s ->
  gz_open_err e = false -> gz_create_err e = false -> gz_copy_err e = None ->
  consistent (ServeHTTP e r s fs).1.1 (ServeHTTP e r s fs).1.2.
Proof.
  intros (doc & Hdoc & Het) Hne Hzo Hzc Hzp. unfold consistent.
  destruct (ServeHTTP_same_config e r s fs) as (Hf & _). rewrite Hf.
  destruct (String.eqb_spec (Method r) MethodPut) as [Hm|Hm];
    [destruct (String.eqb_spec (URLPath r) "/") as [Hp|Hp]|];
    [| rewrite ServeHTTP_reads_only, ServeHTTP_reads_etag by tauto; eauto..].
  rewrite ServeHTTP_put by assumption. clear Hf.
  destruct (classic_staged e) as [Hs | Hs]; [destruct (Lock (mu s)) eqn:HL|].
  - rewrite handlePut_reaches_check by assumption.
    pose proof (handlePutLocked_committed e r (Body r) (MD5.sum (Body r)) s fs) as Hcm.
    unfold handlePutLocked in *.
    destruct (negb _ && negb _); [cbn; eauto|].
    pose proof (archiveWiki_other s e fs (fileName s) (not_eq_sym Hne)) as H1.
    destruct (archiveWiki s e fs) as [fs1 [err|]]; cbn in H1;
      [cbn; exists doc; split; congruence|].
    destruct (rename_err e); [cbn; exists doc; split; congruence|].
    assert (Hz : (compressWiki s e (<[fileName s := Body r]> fs1)).2 = None).
    { apply compressWiki_calm; auto. rewrite lookup_insert_eq. eauto. }
    destruct (compressWiki s e _) as [fs3 [err|]]; [discriminate Hz|].
    destruct (Hcm eq_refl) as (_ & _ & Hd & _). cbn. exists (Body r). auto.
  - assert (Hn : ~ (staged_ok e /\ Lock (mu s) = true))
      by (rewrite HL; intros [_ ?]; discriminate).
    pose proof (handlePut_before_check e r s fs Hn) as Hb.
    destruct (handlePut e r s fs) as [[s' fs'] o].
    destruct Hb as (-> & He & _). cbn. rewrite He. eauto.
  - assert (Hn : ~ (staged_ok e /\ Lock (mu s) = true)) by tauto.
    pose proof (handlePut_before_check e r s fs Hn) as Hb.
    destruct (handlePut e r s fs) as [[s' fs'] o].
    destruct Hb as (-> & He & _). cbn. rewrite He. eauto.
Qed.

(** ** Runs in which no call fails *)

Lemma insert_keeps (fs : FS) (p q : string) (c : list byte) :
  is_Some (fs !! p) -> is_Some (<[q := c]> fs !! p).
Proof.
  intros H. destruct (decide (q = p)) as [->|Hne].
  - rewrite lookup_insert_eq. eauto.
  - rewrite lookup_insert_ne by exact Hne. exact H.
Qed.

Lemma compressWiki_keeps (s : Server) (e : Env) (fs : FS) (p : string) :
  is_Some (fs !! p) -> is_Some ((compressWiki s e fs).1 !! p).
Proof.
  intros H. unfold compressWiki, os_Open, os_Create.
  destruct (isCompress s); cbn; [|exact H].
  destruct (gz_open_err e); cbn; [exact H|].
  destruct (fs !! fileName s); cbn; [|exact H].
  destruct (gz_create_err e); cbn; [exact H|].
  destruct (gz_copy_err e); cbn; [auto using insert_keeps|].
  destruct (gz_close_err e); cbn; auto using insert_keeps.
Qed.

Lemma compressWiki_success_exists (s : Server) (e : Env) (fs fs' : FS) :
  isCompress s = true -> compressWiki s e fs = (fs', None) ->
  is_Some (fs' !! gzPathOf s).
Proof.
  intros Hc. unfold compressWiki, os_Open, os_Create. rewrite Hc. cbn.
  destruct (gz_open_err e); [discriminate|].
  destruct (fs !! fileName s); [|discriminate].
  destruct (gz_create_err e); [discriminate|].
  destruct (gz_copy_err e); [discriminate|].
  destruct (gz_close_err e); intros [= <-]; rewrite lookup_insert_eq; eauto.
Qed.

(** No request removes a file. *)
Lemma ServeHTTP_keeps_files e r s fs (p : string) :
  is_Some (fs !! p) -> is_Some ((ServeHTTP e r s fs).1.2 !! p).
Proof.
  intros H.
  destruct (String.eqb_spec (Method r) MethodPut) as [Hm|Hm];
    [destruct (String.eqb_spec (URLPath r) "/") as [Hp|Hp]|];
    [| rewrite ServeHTTP_reads_only by tauto; exact H..].
  rewrite ServeHTTP_put by assumption. unfold handlePut.
  destruct (tempfile_err e); [exact H|].
  destruct (body_err e); [exact H|].
  destruct (close_err e); [exact H|].
  destruct (Lock (mu s)); [|exact H].
  unfold handlePutLocked.
  destruct (negb _ && negb _); [exact H|].
  assert (H1 : is_Some ((archiveWiki s e fs).1 !! p)).
  { unfold archiveWiki, os_Open, os_Create.
    destruct (isArchive s); cbn; [|exact H].
    destruct (archive_open_err e); cbn; [exact H|].
    destruct (fs !! fileName s); cbn; [|exact H].
    destruct (archive_create_err e); cbn; [exact H|].
    destruct (archive_copy_err e); cbn; auto using insert_keeps. }
  destruct (archiveWiki s e fs) as [fs1 [err|]]; cbn in H1; [exact H1|].
  destruct (rename_err e); [exact H1|].
  pose proof (compressWiki_keeps s e (<[fileName s := Body r]> fs1) p
                (insert_keeps _ _ _ _ H1)) as H2.
  destruct (compressWiki s e _) as [fs3 [err|]]; exact H2.
Qed.

(** A PUT gives the lock back as it found it. *)
Lemma handlePut_unlocks e r s fs :
  Lock (mu s) = true -> mu (handlePut e r s fs).1.1 = mu s.
Proof.
  intros HL. unfold handlePut.
  destruct (tempfile_err e); [reflexivity|].
  destruct (body_err e); [reflexivity|].
  destruct (close_err e); [reflexivity|].
  rewrite HL. unfold handlePutLocked.
  destruct (negb _ && negb _); [reflexivity|].
  destruct (archiveWiki s e fs) as [fs1 [err|]]; [reflexivity|].
  destruct (rename_err e); [reflexivity|].
  destruct (compressWiki s e _) as [fs3 [err|]]; reflexivity.
Qed.

Lemma newServer_healthy f d fmt a c e fs fs' s :
  newServer f d fmt a c e fs = (fs', Some s) -> healthy s fs'.
Proof.
  intros Hnew.
  destruct (newServer_consistent _ _ _ _ _ _ _ _ _ Hnew) as (doc & Hdoc & _).
  destruct (newServer_started _ _ _ _ _ _ _ _ _ Hnew) as (doc0 & _ & Hs & Hrun).
  split; [rewrite Hs; reflexivity|]. split; [eauto|].
  intros Hc. eapply compressWiki_success_exists; eauto.
Qed.

(** A request during which [os.Open] and [Stat] of the read path do not
    fail leaves the server healthy, whatever else fails. *)
Lemma ServeHTTP_healthy e r s fs :
  healthy s fs -> get_open_err e = false -> get_stat_err e = false ->
  healthy (ServeHTTP e r s fs).1.1 (ServeHTTP e r s fs).1.2.
Proof.
  intros (HL & Hdoc & Hgz) Ho Hst.
  destruct (ServeHTTP_same_config e r s fs) as (Hf & _ & _ & _ & Hc).
  unfold healthy, gzPathOf. rewrite Hf, Hc.
  split; [|split; [apply ServeHTTP_keeps_files; exact Hdoc|
                   intros H; apply ServeHTTP_keeps_files, Hgz, H]].
  clear Hf Hc.
  assert (Hmu : mu s = {| readerCount := 0; writerWaiting := false |}).
  { unfold Lock in HL. destruct (mu s) as [n w]. cbn in HL.
    apply andb_true_iff in HL as [Hn Hw].
    apply Nat.eqb_eq in Hn. apply negb_true_iff in Hw. cbn in *. congruence. }
  unfold ServeHTTP.
  destruct (negb _); [exact HL|].
  destruct (String.eqb (Method r) MethodHead).
  { unfold handleHead, RLock. rewrite Hmu. reflexivity. }
  destruct (String.eqb (Method r) MethodOptions); [exact HL|].
  destruct (String.eqb (Method r) MethodGet).
  { unfold handleGet, RLock, os_Open. rewrite Hmu, Ho, Hst. cbn.
    destruct (isCompress s && _) eqn:Hz.
    - apply andb_true_iff in Hz as [Hz _]. destruct (Hgz Hz) as [z Hzz].
      unfold gzPathOf in Hzz. rewrite Hzz. reflexivity.
    - destruct Hdoc as [doc Hd].
      replace (fileName s +:+ "") with (fileName s) by (symmetry; apply append_empty_r).
      rewrite Hd. reflexivity. }
  destruct (String.eqb (Method r) MethodPut); [|exact HL].
  rewrite handlePut_unlocks by exact HL. exact HL.
Qed.

End Handlers.

(** ** The server at work, on the small site *)

(** Closed goals: evaluate, then compare conjunct by conjunct. *)
Ltac evaluate :=
  vm_compute;
  repeat match goal with |- _ /\ _ => split end;
  first [reflexivity | discriminate].

Lemma startup_default : main default_flags (calm "") disk0 = (disk1, Some server1).
Proof. vm_compute. reflexivity. Qed.

(** C1: with the default flags and the wiki holding "v1", a PUT of "v2"
    that carries the current ETag and whose [compressWiki] cannot create
    the variant is answered 500 after the rename: "v2" is the live
    document, and the server goes on holding and sending the ETag of
    "v1". *)
Theorem etag_stale_after_failed_compression :
  main default_flags (calm "") disk0 = (disk1, Some server1) /\
  let '(s', fs', o) :=
    handlePut (gz_create_fails stamp1) (reqPut v2 (Some (etagOf v1))) server1 disk1 in
  o = respond StatusInternalServerError ∅ [] /\
  fs' !! fileName s' = Some v2 /\
  etag s' = etagOf v1 /\
  etag s' <> etagOf v2 /\
  (handleHead s').2 = respond StatusOK {[ headerEtag := etagOf v1 ]} [] /\
  (handleGet (calm "") (reqGet None) s' fs').2 =
    respond StatusOK
      (<[ headerEtag := etagOf v1 ]> {[ headerContentLength := "2"%string ]}) v2.
Proof.
  split; [apply startup_default|]. evaluate.
Qed.

(** C3: [newServer] sets [isCompress] from its [isArchive] argument.
    Started with archiving off and compression on, the server writes no
    compressed variant and answers a GET that accepts gzip with the plain
    document; started with archiving on and compression off, it writes the
    variant and serves it. *)
Theorem compress_flag_is_not_honoured :
  (exists s,
     main flags_compress_only (calm "") disk0 = (disk0, Some s) /\
     isCompress s = false /\
     disk0 !! gzPathOf s = None /\
     (handleGet (calm "") (reqGet (Some "gzip"%string)) s disk0).2 =
       respond StatusOK
         (<[ headerEtag := etagOf v1 ]> {[ headerContentLength := "2"%string ]}) v1) /\
  (exists s,
     main flags_archive_only (calm "") disk0 = (disk1, Some s) /\
     isCompress s = true /\
     disk1 !! gzPathOf s = Some (framed_gzip v1) /\
     (handleGet (calm "") (reqGet (Some "gzip"%string)) s disk1).2 =
       respond StatusOK
         (<[ headerEtag := etagOf v1 ]>
            (<[ headerContentLength := "4"%string ]>
               {[ headerContentEncoding := encodingGzip ]})) (framed_gzip v1)).
Proof.
  split.
  - eexists. split; [vm_compute; reflexivity|]. evaluate.
  - eexists. split; [vm_compute; reflexivity|]. evaluate.
Qed.

(** C2 does not hold as it is written: a PUT whose If-Match differs from
    the current ETag, and whose body cannot be read to the end, is answered
    500, not 412. *)
Lemma conflicting_put_answered_500 :
  let r := reqPut v3 (Some (etagOf v2)) in
  Get headerIfMatch (ReqHeader r) <> ""%string /\
  Get headerIfMatch (ReqHeader r) <> etag server1 /\
  handlePut (body_fails stamp1) r server1 disk1 =
    (server1, disk1, respond StatusInternalServerError ∅ []) /\
  (handlePut (body_fails stamp1) r server1 disk1).2 <>
    respond StatusPreconditionFailed ∅ [].
Proof. evaluate. Qed.

(** C5 does not hold as it is written: two successful PUTs whose time
    stamps format to the same name leave one archive file, which holds the
    document replaced by the second; the first version is gone. *)
Lemma same_stamp_overwrites_archive :
  isArchive server1 = true /\ archiveEntries server1 disk1 = ∅ /\
  let '(s', fs', outs) :=
    serve [(calm stamp1, reqPut v2 None); (calm stamp1, reqPut v3 None)] server1 disk1 in
  outs = [respond StatusOK {[ headerEtag := etagOf v2 ]} [];
          respond StatusOK {[ headerEtag := etagOf v3 ]} []] /\
  map_to_list (archiveEntries s' fs') = [("old/" +:+ stamp1, v2)] /\
  size (archiveEntries s' fs') = 1%nat /\
  size (archiveEntries s' fs') <> 2%nat.
Proof. evaluate. Qed.

(** C7 does not hold as it is written: the variant cannot be opened, the
    live document is there, and the GET is answered 500 with no body. *)
Lemma gzip_get_fails_without_fallback :
  let r := reqGet (Some "gzip"%string) in
  Contains (Get headerAcceptEncoding (ReqHeader r)) encodingGzip = true /\
  disk1 !! fileName server1 = Some v1 /\
  (handleGet (get_open_fails "") r server1 disk1).2 =
    respond StatusInternalServerError {[ headerContentEncoding := encodingGzip ]} [] /\
  (handleGet (get_open_fails "") r server1 disk1).2 <>
    respond StatusOK
      (<[ headerEtag := etagOf v1 ]> {[ headerContentLength := "2"%string ]}) v1.
Proof. evaluate. Qed.


(** The scenario of the specification: "v1" is live; a PUT of "v2" with the
    ETag of "v1" is accepted; a PUT of "v3" with the same, now stale, ETag
    is rejected and changes nothing. *)
Example save_then_stale_save :
  let '(s', fs', outs) :=
    serve [(calm stamp1, reqPut v2 (Some (etagOf v1)));
           (calm stamp2, reqPut v3 (Some (etagOf v1)))] server1 disk1 in
  outs = [respond StatusOK {[ headerEtag := etagOf v2 ]} [];
          respond StatusPreconditionFailed ∅ []] /\
  fs' !! fileName s' = Some v2 /\
  etag s' = etagOf v2 /\
  map_to_list (archiveEntries s' fs') = [("old/" +:+ stamp1, v1)] /\
  (gunzip <$> fs' !! gzPathOf s') = Some (Some v2).
Proof. evaluate. Qed.

(** A PUT of "v3" that carries the ETag of another version. *)
Lemma put_conflict_leaves_all_unchanged_witness :
  let r := reqPut v3 (Some (etagOf v2)) in
  Get headerIfMatch (ReqHeader r) <> ""%string /\
  Get headerIfMatch (ReqHeader r) <> etag server1 /\
  handlePut (calm stamp1) r server1 disk1 =
    (server1, disk1, respond StatusPreconditionFailed ∅ []).
Proof.
  intros r.
  assert (H1 : Get headerIfMatch (ReqHeader r) <> ""%string) by (vm_compute; discriminate).
  assert (H2 : Get headerIfMatch (ReqHeader r) <> etag server1) by (vm_compute; discriminate).
  split; [exact H1|]. split; [exact H2|].
  pose proof (put_conflict_leaves_all_unchanged (calm stamp1) r server1 disk1 H1 H2) as H.
  destruct (handlePut (calm stamp1) r server1 disk1) as [[s' fs'] o].
  destruct H as (-> & _ & _ & _ & Hok & _).
  destruct Hok as [-> ->]; [vm_compute; auto | reflexivity | reflexivity].
Defined.

(** The PUT of "v2" that carries the current ETag. *)
Lemma put_success_fingerprint_witness :
  handlePut (calm stamp1) (reqPut v2 (Some (etagOf v1))) server1 disk1 =
    (server2, disk2, respond StatusOK {[ headerEtag := etagOf v2 ]} []) /\
  etag server2 = dquote +:+ Hex.EncodeToString (MD5.sum v2) +:+ dquote /\
  Hex.EncodeToString (MD5.sum v2) = "1b267619c4812cc46ee281747884ca50"%string /\
  disk2 !! fileName server2 = Some v2.
Proof.
  assert (Hrun : handlePut (calm stamp1) (reqPut v2 (Some (etagOf v1))) server1 disk1 =
                 (server2, disk2, respond StatusOK {[ headerEtag := etagOf v2 ]} []))
    by (vm_compute; reflexivity).
  split; [exact Hrun|].
  pose proof (put_success_fingerprint (calm stamp1) (reqPut v2 (Some (etagOf v1)))
                server1 disk1) as H.
  rewrite Hrun in H.
  destruct (H _ eq_refl eq_refl) as (He & _ & _ & _ & Hd & _).
  split; [exact He|]. split; [vm_compute; reflexivity | exact Hd].
Defined.

(** An unconditional PUT of "v2" on the small site. *)
Lemma put_without_token_accepted_witness :
  ReqHeader (reqPut v2 None) !! headerIfMatch = None /\
  no_failure (calm stamp1) /\
  Lock (mu server1) = true /\
  disk1 !! fileName server1 = Some v1 /\
  let '(s', fs', o) := handlePut (calm stamp1) (reqPut v2 None) server1 disk1 in
  o = respond StatusOK {[ headerEtag := etagOf v2 ]} [] /\
  fs' !! fileName s' = Some v2 /\
  etag s' = etagOf v2.
Proof.
  assert (H1 : ReqHeader (reqPut v2 None) !! headerIfMatch = None) by reflexivity.
  assert (H2 : no_failure (calm stamp1)) by (repeat split; reflexivity).
  assert (H3 : Lock (mu server1) = true) by reflexivity.
  assert (H4 : disk1 !! fileName server1 = Some v1) by (vm_compute; reflexivity).
  repeat (split; [assumption|]).
  exact (put_without_token_accepted (calm stamp1) (reqPut v2 None) server1 disk1
           (or_introl H1) H2 H3 (ex_intro _ v1 H4)).
Defined.


(** A GET that accepts gzip, with and without a failing [os.Open]. *)
Lemma get_gzip_has_no_fallback_witness :
  let r := reqGet (Some "gzip"%string) in
  isCompress server1 = true /\
  Contains (Get headerAcceptEncoding (ReqHeader r)) encodingGzip = true /\
  writerWaiting (mu server1) = false /\
  (handleGet (get_open_fails "") r server1 disk1).2 =
    respond StatusInternalServerError {[ headerContentEncoding := encodingGzip ]} [] /\
  (handleGet (calm "") r server1 disk1).2 =
    respond StatusOK
      (<[ headerEtag := etagOf v1 ]>
         (<[ headerContentLength := "4"%string ]>
            {[ headerContentEncoding := encodingGzip ]})) (framed_gzip v1).
Proof.
  intros r.
  assert (H1 : isCompress server1 = true) by reflexivity.
  assert (H2 : Contains (Get headerAcceptEncoding (ReqHeader r)) encodingGzip = true)
    by (vm_compute; reflexivity).
  assert (H3 : writerWaiting (mu server1) = false) by reflexivity.
  repeat (split; [assumption|]).
  split.
  - pose proof (get_gzip_has_no_fallback (get_open_fails "") r server1 disk1 H1 H2 H3) as H.
    destruct (handleGet (get_open_fails "") r server1 disk1) as [s' o].
    destruct H as [H _]. apply H. left. reflexivity.
  - pose proof (get_gzip_has_no_fallback (calm "") r server1 disk1 H1 H2 H3) as H.
    destruct (handleGet (calm "") r server1 disk1) as [s' o].
    destruct H as [_ H].
    destruct (H (framed_gzip v1) eq_refl) as [-> _];
      [vm_compute; reflexivity | reflexivity | repeat constructor | reflexivity].
Defined.

(** Two PUTs a little more than a second apart. *)
Lemma archive_keeps_replaced_documents_witness :
  let reqs := [(calm stamp1, reqPut v2 None); (calm stamp2, reqPut v3 None)] in
  let run := serve reqs server1 disk1 in
  isArchive server1 = true /\ outside_archive server1 /\
  Forall (fun er => is_put er.2) reqs /\
  Forall succeeded run.2 /\
  NoDup ((fun er => now_formatted er.1) <$> reqs) /\
  archiveEntries server1 disk1 = ∅ /\
  archiveEntries run.1.1 run.1.2 =
    {[ "old/" +:+ stamp1 := v1; "old/" +:+ stamp2 := v2 ]} /\
  size (archiveEntries run.1.1 run.1.2) = 2%nat.
Proof.
  intros reqs run.
  assert (H1 : isArchive server1 = true) by reflexivity.
  assert (H2 : outside_archive server1) by (split; vm_compute; reflexivity).
  assert (H3 : Forall (fun er => is_put er.2) reqs)
    by (repeat constructor).
  assert (H4 : Forall succeeded run.2).
  { vm_compute. repeat (constructor; [eexists; split; reflexivity|]). constructor. }
  assert (H5 : NoDup ((fun er => now_formatted er.1) <$> reqs)).
  { cbn. apply NoDup_cons. split; [|apply NoDup_singleton].
    rewrite list_elem_of_singleton. discriminate. }
  assert (H6 : archiveEntries server1 disk1 = ∅) by (vm_compute; reflexivity).
  repeat (split; [assumption|]).
  assert (Hrun : serve reqs server1 disk1 = (run.1.1, run.1.2, run.2))
    by (subst run; destruct (serve reqs server1 disk1) as [[? ?] ?]; reflexivity).
  destruct (archive_keeps_replaced_documents server1 H1 H2) as [Hruns _].
  destruct (Hruns reqs disk1 run.1.1 run.1.2 run.2 H3 Hrun H4 H5 H6) as (Hmap & _ & Hsize).
  split; [|exact Hsize].
  rewrite Hmap. vm_compute. reflexivity.
Defined.

(** The star and the bare digest are rejected, the quoted token passes. *)
Lemma if_match_is_exact_string_equality_witness :
  Status (handlePutLocked (calm stamp1) (reqPut v2 (Some "*"%string)) v2 (MD5.sum v2)
            server1 disk1).2 = StatusPreconditionFailed /\
  Status (handlePutLocked (calm stamp1)
            (reqPut v2 (Some "6654c734ccab8f440ff0825eb443dc7f"%string)) v2 (MD5.sum v2)
            server1 disk1).2 = StatusPreconditionFailed /\
  Status (handlePutLocked (calm stamp1) (reqPut v2 (Some (etagOf v1))) v2 (MD5.sum v2)
            server1 disk1).2 = StatusOK.
Proof.
  split; [|split].
  - apply (if_match_is_exact_string_equality (calm stamp1) (reqPut v2 (Some "*"%string))
             v2 (MD5.sum v2) server1 disk1).
    split; vm_compute; discriminate.
  - destruct (if_match_is_exact_string_equality (calm stamp1)
                (reqPut v2 (Some "6654c734ccab8f440ff0825eb443dc7f"%string))
                v2 (MD5.sum v2) server1 disk1) as (_ & _ & H & _).
    apply (H v1 eq_refl). left. vm_compute. reflexivity.
  - vm_compute. reflexivity.
Defined.


(** The error exits of [handleGet] keep the read lock: the next PUT waits
    for it for ever, and every reader after that PUT waits behind it. *)
Example leaked_read_lock_blocks_put :
  let '(s', fs', outs) :=
    serve [(get_open_fails "", reqGet (Some "gzip"%string));
           (calm stamp1, reqPut v2 None);
           (calm "", reqHead)] server1 disk1 in
  outs = [respond StatusInternalServerError {[ headerContentEncoding := encodingGzip ]} [];
          Blocked; Blocked] /\
  fs' = disk1 /\
  mu s' = {| readerCount := 1; writerWaiting := true |}.
Proof. evaluate. Qed.

(** * More of the program *)

(** ** [fixPath] *)

Lemma get_last_of_append_slash (a : string) :
  String.get (String.length (a +:+ "/") - 1) (a +:+ "/") = Some "/"%char.
Proof.
  rewrite append_length. cbn [String.length].
  replace (String.length a + 1 - 1)%nat with (0 + String.length a)%nat by lia.
  rewrite <- append_correct2. reflexivity.
Qed.

Lemma get_last_nonempty (c : ascii) (s : string) :
  is_Some (String.get (String.length (String c s) - 1) (String c s)).
Proof.
  revert c. induction s as [|d s IH]; intros c; [cbn; eauto|].
  specialize (IH d). cbn [String.length] in *.
  replace (Datatypes.S (Datatypes.S (String.length s)) - 1)%nat
    with (Datatypes.S (Datatypes.S (String.length s) - 1)) by lia.
  exact IH.
Qed.

(** X1: [fixPath] panics exactly on the empty string (the index [p[0]] is
    out of range); every other string gets a result. *)
Theorem fixPath_panics_iff_empty (p : string) :
  fixPath p = None <-> p = ""%string.
Proof.
  split.
  - destruct p as [|c p]; [reflexivity|]. unfold fixPath. cbn [String.get].
    destruct (Ascii.eqb c "/").
    + destruct (get_last_nonempty c p) as [d Hd]. rewrite Hd. discriminate.
    + change ("/" +:+ String c p) with (String "/" (String c p)).
      destruct (get_last_nonempty "/" (String c p)) as [d Hd]. rewrite Hd. discriminate.
  - intros ->. reflexivity.
Qed.

Lemma fixPath_fixed (q : string) :
  String.get 0 q = Some "/"%char ->
  String.get (String.length q - 1) q = Some "/"%char ->
  fixPath q = Some q.
Proof. intros H0 Hl. unfold fixPath. rewrite H0. cbn. rewrite Hl. reflexivity. Qed.



(** ** [whitelistMethods] *)

Lemma allow_lookup (methods : list string) (m0 : gmap string bool) (k : string) :
  default false (fold_left (fun m method => <[method := true]> m) methods m0 !! k) = true <->
  k ∈ methods \/ default false (m0 !! k) = true.
Proof.
  revert m0. induction methods as [|x methods IH]; intros m0; cbn [fold_left].
  - rewrite elem_of_nil. tauto.
  - rewrite IH, elem_of_cons.
    destruct (decide (x = k)) as [->|Hne].
    + rewrite lookup_insert_eq. cbn. tauto.
    + rewrite lookup_insert_ne by exact Hne.
      split; [intros [?|?]; auto | intros [[?|?]|?]; auto; congruence].
Qed.

(** X3: the handler that [whitelistMethods] returns passes a request on to
    the handler it wraps exactly when the method is one of those listed,
    compared as it is spelt; any other request is answered 405 and never
    reaches the wrapped handler.  As [main] wraps the file server of the
    archive with GET and HEAD, no other method reaches it. *)
Theorem whitelistMethods_passes_listed_methods_only
    (h : Request -> Response) (methods : list string) (r : Request) :
  (Method r ∈ methods -> whitelistMethods h methods r = h r) /\
  (Method r ∉ methods ->
   whitelistMethods h methods r =
     {| Status := StatusMethodNotAllowed; RespHeader := ∅; RespBody := [] |}) /\
  (Method r <> MethodGet -> Method r <> MethodHead ->
   whitelistMethods h [MethodGet; MethodHead] r =
     {| Status := StatusMethodNotAllowed; RespHeader := ∅; RespBody := [] |}).
Proof.
  assert (Hin : forall ms, Method r ∈ ms -> whitelistMethods h ms r = h r).
  { intros ms H. unfold whitelistMethods.
    rewrite (proj2 (allow_lookup ms ∅ (Method r)) (or_introl H)). reflexivity. }
  assert (Hout : forall ms, Method r ∉ ms ->
            whitelistMethods h ms r =
              {| Status := StatusMethodNotAllowed; RespHeader := ∅; RespBody := [] |}).
  { intros ms H. unfold whitelistMethods.
    destruct (default false _) eqn:Ha; [|reflexivity].
    apply allow_lookup in Ha as [Ha|Ha]; [contradiction|].
    rewrite lookup_empty in Ha. discriminate. }
  split; [apply Hin|]. split; [apply Hout|].
  intros Hg Hh. apply Hout. rewrite !elem_of_cons, elem_of_nil. tauto.
Qed.

(** ** [strings.Contains] and the choice of the variant *)

Lemma prefix_spec (sub s : string) :
  String.prefix sub s = true <-> exists b, s = sub +:+ b.
Proof.
  revert s. induction sub as [|c sub IH]; intros s.
  - split; [intros _; exists s; reflexivity | intros _; destruct s; reflexivity].
  - destruct s as [|d s].
    + split; [discriminate | intros [b Hb]; discriminate Hb].
    + cbn [String.prefix]. destruct (ascii_dec c d) as [->|Hne].
      * rewrite IH. split; intros [b Hb]; exists b.
        -- change (String d s = String d (sub +:+ b)). rewrite Hb. reflexivity.
        -- change (String d s = String d (sub +:+ b)) in Hb. congruence.
      * split; [discriminate|]. intros [b Hb].
        change (String d s = String c (sub +:+ b)) in Hb. congruence.
Qed.

Lemma Contains_spec (s substr : string) :
  Contains s substr = true <-> exists a b, s = a +:+ substr +:+ b.
Proof.
  induction s as [|c s IH].
  - cbn [Contains]. destruct (String.prefix substr "") eqn:Hp.
    + split; [intros _|reflexivity].
      apply prefix_spec in Hp as [b Hb]. exists ""%string, b. exact Hb.
    + split; [discriminate|]. intros (a & b & Hab).
      destruct a; [|discriminate Hab].
      assert (String.prefix substr "" = true) by (apply prefix_spec; eauto).
      congruence.
  - cbn [Contains]. destruct (String.prefix substr (String c s)) eqn:Hp.
    + split; [intros _|reflexivity].
      apply prefix_spec in Hp as [b Hb]. exists ""%string, b. exact Hb.
    + rewrite IH. split; intros (a & b & Hab).
      * exists (String c a), b.
        change (String c s = String c (a +:+ substr +:+ b)). rewrite Hab. reflexivity.
      * destruct a as [|d a].
        -- assert (String.prefix substr (String c s) = true) by (apply prefix_spec; eauto).
           congruence.
        -- change (String c s = String d (a +:+ substr +:+ b)) in Hab.
           exists a, b. congruence.
Qed.

(** X4: [Contains s substr] holds exactly when [substr] occurs somewhere
    in [s]: [s] is some string, then [substr], then some string. *)
Theorem Contains_iff_occurs (s substr : string) :
  Contains s substr = true <-> exists a b, s = a +:+ substr +:+ b.
Proof. apply Contains_spec. Qed.

(** ** [hex.EncodeToString] and the ETag *)

Lemma digit_inj (n m : Z) :
  0 <= n < 16 -> 0 <= m < 16 -> Hex.digit n = Hex.digit m -> n = m.
Proof.
  intros Hn Hm Heq.
  assert (Hall : forallb (fun i => forallb (fun j =>
                   implb (Ascii.eqb (Hex.digit (Z.of_nat i)) (Hex.digit (Z.of_nat j)))
                         (Nat.eqb i j)) (seq 0 16)) (seq 0 16) = true)
    by (vm_compute; reflexivity).
  rewrite forallb_forall in Hall.
  specialize (Hall (Z.to_nat n)). rewrite forallb_forall in Hall.
  specialize (Hall ltac:(apply in_seq; lia) (Z.to_nat m) ltac:(apply in_seq; lia)).
  rewrite !Z2Nat.id, Heq, Ascii.eqb_refl in Hall by lia.
  cbn in Hall. apply Nat.eqb_eq in Hall. lia.
Qed.

Lemma Z_of_byte_inj (x y : byte) : MD5.Z_of_byte x = MD5.Z_of_byte y -> x = y.
Proof.
  unfold MD5.Z_of_byte. intros H. apply N2Z.inj in H.
  pose proof (Byte.of_to_N x) as Hx. pose proof (Byte.of_to_N y) as Hy.
  rewrite H in Hx. congruence.
Qed.

Lemma byte_of_digits (x y : byte) :
  Hex.digit (Z.shiftr (MD5.Z_of_byte x) 4) = Hex.digit (Z.shiftr (MD5.Z_of_byte y) 4) ->
  Hex.digit (Z.land (MD5.Z_of_byte x) 0x0f) = Hex.digit (Z.land (MD5.Z_of_byte y) 0x0f) ->
  x = y.
Proof.
  intros Hhi Hlo. apply Z_of_byte_inj.
  assert (Hb : forall b, 0 <= MD5.Z_of_byte b < 256).
  { intros b. unfold MD5.Z_of_byte. pose proof (Byte.to_N_bounded b). lia. }
  pose proof (Hb x) as Bx. pose proof (Hb y) as By.
  rewrite !Z.shiftr_div_pow2 in Hhi by lia.
  change 0x0f with (Z.ones 4) in Hlo. rewrite !Z.land_ones in Hlo by lia.
  change (2 ^ 4) with 16 in *.
  apply digit_inj in Hhi; [|split; [apply Z.div_pos; lia | apply Z.div_lt_upper_bound; lia]..].
  apply digit_inj in Hlo; [|apply Z.mod_pos_bound; lia..].
  rewrite (Z.div_mod (MD5.Z_of_byte x) 16), (Z.div_mod (MD5.Z_of_byte y) 16) by lia.
  congruence.
Qed.

Lemma EncodeToString_inj (a b : list byte) :
  Hex.EncodeToString a = Hex.EncodeToString b -> a = b.
Proof.
  revert b. induction a as [|x a IH]; intros [|y b]; cbn [Hex.EncodeToString];
    try discriminate; [reflexivity|].
  intros [= Hhi Hlo Hrest]. f_equal; [exact (byte_of_digits x y Hhi Hlo) | exact (IH b Hrest)].
Qed.

Lemma append_inj_r (a b c : string) :
  String.length a = String.length b -> a +:+ c = b +:+ c -> a = b.
Proof.
  revert b. induction a as [|x a IH]; intros [|y b] Hlen Heq; try discriminate Hlen.
  - reflexivity.
  - change (String x (a +:+ c) = String y (b +:+ c)) in Heq.
    injection Heq as -> Heq. f_equal. apply IH; [|exact Heq].
    cbn in Hlen. lia.
Qed.

(** X5: two contents get the same ETag exactly when their md5 sums are
    equal: the hexadecimal rendering and the quotes lose nothing of the
    digest. *)
Theorem etag_equal_iff_digest_equal (a b : list byte) :
  etagOf a = etagOf b <-> MD5.sum a = MD5.sum b.
Proof.
  split; [|intros H; unfold etagOf; rewrite H; reflexivity].
  unfold etagOf. intros H. apply String.app_inj in H.
  apply append_inj_r in H; [apply EncodeToString_inj; exact H|].
  rewrite !hex_length, !md5_sum_length. reflexivity.
Qed.

Section MoreOfTheServer.
Context {codec : Gzip} {net : NetHTTP}.

(** ** Routing *)

(** X6: a request for another path than the root is answered 404, whatever
    its method, and a request for the root with a method other than HEAD,
    OPTIONS, GET and PUT is answered 405; neither takes the lock, reads the
    ETag or touches a file. *)
Theorem requests_off_the_protocol_change_nothing e r s fs :
  (URLPath r <> "/"%string ->
   ServeHTTP e r s fs = (s, fs, respond StatusNotFound ∅ [])) /\
  (URLPath r = "/"%string ->
   Method r ∉ [MethodHead; MethodOptions; MethodGet; MethodPut] ->
   ServeHTTP e r s fs = (s, fs, respond StatusMethodNotAllowed ∅ [])).
Proof.
  unfold ServeHTTP. split.
  - intros Hp. rewrite (proj2 (String.eqb_neq _ _) Hp). reflexivity.
  - intros Hp Hm. rewrite Hp. cbn [String.eqb negb].
    rewrite !elem_of_cons, elem_of_nil in Hm.
    destruct (String.eqb_spec (Method r) MethodHead); [tauto|].
    destruct (String.eqb_spec (Method r) MethodOptions); [tauto|].
    destruct (String.eqb_spec (Method r) MethodGet); [tauto|].
    destruct (String.eqb_spec (Method r) MethodPut); [tauto|]. reflexivity.
Qed.

(** X7: OPTIONS on the root is answered 200 with the header Dav: putter in
    every state, also when the lock is held for ever and HEAD, GET and PUT
    wait; it changes nothing. *)
Theorem options_needs_no_lock e r s fs :
  URLPath r = "/"%string -> Method r = MethodOptions ->
  ServeHTTP e r s fs = (s, fs, respond StatusOK {[ headerDav := "putter"%string ]} []).
Proof. intros Hp Hm. unfold ServeHTTP. rewrite Hp, Hm. reflexivity. Qed.

(** ** Reading *)

Lemma set_mu_same (s : Server) : set_mu (mu s) s = s.
Proof. destruct s. reflexivity. Qed.

Lemma RUnlock_RLock (m m' : RWMutex) : RLock m = Some m' -> RUnlock m' = m.
Proof.
  unfold RLock, RUnlock. destruct m as [n w]. cbn. destruct w; [discriminate|].
  intros [= <-]. reflexivity.
Qed.

(** X8: a HEAD or a GET on the root never changes a file, the ETag or the
    configuration.  Unless it is left waiting or answered 500 it leaves
    the whole [Server] value, the lock included, as it found it; an
    answered HEAD carries the ETag of the server and nothing else. *)
Theorem reads_change_nothing e r s fs :
  URLPath r = "/"%string -> Method r = MethodHead \/ Method r = MethodGet ->
  let '(s', fs', o) := ServeHTTP e r s fs in
  fs' = fs /\ etag s' = etag s /\ same_config s s' /\
  (o <> Blocked -> ~ answered StatusInternalServerError o -> s' = s) /\
  (Method r = MethodHead -> o <> Blocked ->
   o = respond StatusOK {[ headerEtag := etag s ]} []).
Proof.
  intros Hp Hm. unfold ServeHTTP. rewrite Hp. cbn [String.eqb negb].
  destruct Hm as [Hm|Hm]; rewrite Hm; cbn [String.eqb Ascii.eqb Bool.eqb].
  - unfold handleHead. destruct (RLock (mu s)) as [m|] eqn:HL.
    + rewrite (RUnlock_RLock _ _ HL), set_mu_same.
      repeat split; auto.
    + repeat split; auto; congruence.
  - change (String.eqb MethodGet MethodHead) with false.
    change (String.eqb MethodGet MethodOptions) with false.
    change (String.eqb MethodGet MethodGet) with true. cbn iota.
    unfold handleGet. destruct (RLock (mu s)) as [m|] eqn:HL.
    + destruct (os_Open _ _ _) as [content|].
      * destruct (get_stat_err e).
        -- repeat split; auto; try discriminate.
           intros _ Hn. exfalso. apply Hn. eexists. split; reflexivity.
        -- rewrite (RUnlock_RLock _ _ HL), set_mu_same.
           repeat split; auto; discriminate.
      * repeat split; auto; try discriminate.
        intros _ Hn. exfalso. apply Hn. eexists. split; reflexivity.
    + repeat split; auto; congruence.
Qed.

(** X9: when the ETag of the server is the hash of the live document, a
    GET without conditional or range headers that is not served the
    compressed variant gets the live document, its length in decimal as
    Content-Length and, as ETag, the hash of the very bytes it gets; and
    HEAD reports the same ETag. *)
Theorem get_serves_the_document_with_its_etag e r s fs :
  consistent s fs -> writerWaiting (mu s) = false -> read_calm e ->
  plain (ReqHeader r) ->
  isCompress s && Contains (Get headerAcceptEncoding (ReqHeader r)) encodingGzip = false ->
  exists doc,
    fs !! fileName s = Some doc /\
    handleGet e r s fs =
      (s, respond StatusOK
            (<[ headerEtag := etagOf doc ]>
               {[ headerContentLength := pretty (Z.of_nat (length doc)) ]}) doc) /\
    handleHead s = (s, respond StatusOK {[ headerEtag := etagOf doc ]} []).
Proof.
  intros (doc & Hdoc & Het) Hw (Ho & Hst) Hplain Hz. exists doc.
  assert (HL : RLock (mu s) =
               Some {| readerCount := Datatypes.S (readerCount (mu s)); writerWaiting := false |})
    by (unfold RLock; rewrite Hw; reflexivity).
  split; [exact Hdoc|]. split.
  - unfold handleGet, os_Open. rewrite HL, Hz, Ho, append_empty_r, Hdoc, Hst.
    rewrite (RUnlock_RLock _ _ HL), set_mu_same, Het.
    unfold respond. rewrite ServeContent_plain by exact Hplain.
    rewrite insert_empty. reflexivity.
  - unfold handleHead. rewrite HL, (RUnlock_RLock _ _ HL), set_mu_same, Het. reflexivity.
Qed.

(** ** Writing, then reading *)

(** What a PUT that is answered 200 has gone through. *)
Lemma handlePut_succeeded e r s fs :
  let '(s', fs', o) := handlePut e r s fs in
  succeeded o ->
  staged_ok e /\ Lock (mu s) = true /\ token_ok r s /\
  s' = setEtagFromHash (MD5.sum (Body r)) s /\
  o = respond StatusOK {[ headerEtag := etagOf (Body r) ]} [] /\
  fs' !! fileName s = Some (Body r) /\
  (archiveWiki s e fs).2 = None /\ rename_err e = false /\
  compressWiki s e (<[fileName s := Body r]> (archiveWiki s e fs).1) = (fs', None).
Proof.
  destruct (classic_staged e) as [Hs | Hs]; [destruct (Lock (mu s)) eqn:HL|].
  - rewrite handlePut_reaches_check by assumption.
    pose proof (handlePutLocked_committed e r (Body r) (MD5.sum (Body r)) s fs) as Hcm.
    destruct (handlePutLocked _ _ _ _ _ _) as [[s' fs'] w'].
    intros (w & [= <-] & Hok).
    destruct (Hcm Hok) as (-> & -> & Hdoc & Htok & Ha & Hr & Hz).
    repeat split; auto; apply Hs.
  - assert (Hn : ~ (staged_ok e /\ Lock (mu s) = true))
      by (rewrite HL; intros [_ ?]; discriminate).
    pose proof (handlePut_before_check e r s fs Hn) as Hb.
    destruct (handlePut e r s fs) as [[s' fs'] o].
    destruct Hb as (_ & _ & _ & [-> | ->] & _); intros (w & [= <-] & ?); discriminate.
  - assert (Hn : ~ (staged_ok e /\ Lock (mu s) = true)) by tauto.
    pose proof (handlePut_before_check e r s fs Hn) as Hb.
    destruct (handlePut e r s fs) as [[s' fs'] o].
    destruct Hb as (_ & _ & _ & [-> | ->] & _); intros (w & [= <-] & ?); discriminate.
Qed.

Lemma Lock_free (m : RWMutex) :
  Lock m = true -> m = {| readerCount := 0; writerWaiting := false |}.
Proof.
  unfold Lock. destruct m as [n w]. cbn. intros H.
  apply andb_true_iff in H as [Hn Hw].
  apply Nat.eqb_eq in Hn. apply negb_true_iff in Hw. congruence.
Qed.

(** X10: on a server that compresses, after a PUT that was answered 200
    (the gzip writer having closed well), a GET that accepts gzip and
    carries no conditional or range header is answered 200 with
    Content-Encoding gzip, the ETag of the uploaded bytes, and a body that
    decompresses to exactly the uploaded bytes. *)
Theorem put_then_gzip_get_round_trip e r s fs e' r' :
  isCompress s = true -> gz_close_err e = None ->
  succeeded (handlePut e r s fs).2 ->
  read_calm e' -> plain (ReqHeader r') ->
  Contains (Get headerAcceptEncoding (ReqHeader r')) encodingGzip = true ->
  let '(s1, fs1, _) := handlePut e r s fs in
  (handleGet e' r' s1 fs1).2 =
    respond StatusOK
      (<[ headerEtag := etagOf (Body r) ]>
         (<[ headerContentLength := pretty (Z.of_nat (length (gzip_best (Body r)))) ]>
            {[ headerContentEncoding := encodingGzip ]})) (gzip_best (Body r)) /\
  gunzip (gzip_best (Body r)) = Some (Body r) /\
  fs1 !! fileName s1 = Some (Body r).
Proof.
  intros Hc Hclose Hok (Ho & Hst) Hplain Ha.
  pose proof (handlePut_succeeded e r s fs) as Hs.
  destruct (handlePut e r s fs) as [[s1 fs1] o]. cbn in Hok.
  destruct (Hs Hok) as (_ & HL & _ & -> & _ & Hdoc & _ & _ & Hrun).
  assert (Hgz : fs1 !! gzPathOf s = Some (gzip_best (Body r)))
    by (apply (compressWiki_ok s e _ fs1 (Body r) Hc (lookup_insert_eq _ _ _) Hrun Hclose)).
  split; [|split; [apply gunzip_gzip | exact Hdoc]].
  rewrite handleGet_gzip; [| exact Hc | exact Ha | cbn; rewrite (Lock_free _ HL); reflexivity].
  unfold os_Open. rewrite Ho.
  change (gzPathOf (setEtagFromHash (MD5.sum (Body r)) s)) with (gzPathOf s).
  rewrite Hgz, Hst. cbn [snd]. unfold respond.
  rewrite ServeContent_plain by exact Hplain. reflexivity.
Qed.

(** ** The lock *)

(** X11: a GET that leaves through one of its error exits (the file
    cannot be opened, or its size cannot be read) keeps the read lock.
    From then on every PUT whose upload is staged waits for ever without
    touching a file, and once such a PUT waits, every HEAD and every GET
    waits behind it. *)
Theorem failed_get_blocks_the_server e r s fs :
  Lock (mu s) = true ->
  os_Open (get_open_err e) fs
    (fileName s +:+
     (if isCompress s && Contains (Get headerAcceptEncoding (ReqHeader r)) encodingGzip
      then extensionGzip else ""%string)) = None \/ get_stat_err e = true ->
  let s1 := (handleGet e r s fs).1 in
  answered StatusInternalServerError (handleGet e r s fs).2 /\
  mu s1 = {| readerCount := 1; writerWaiting := false |} /\
  forall e2 r2 fs2, staged_ok e2 ->
    let '(s2, fs2', o2) := handlePut e2 r2 s1 fs2 in
    o2 = Blocked /\ fs2' = fs2 /\
    (handleHead s2).2 = Blocked /\
    (forall e3 r3 fs3, (handleGet e3 r3 s2 fs3).2 = Blocked) /\
    (forall e3 r3 fs3, staged_ok e3 -> (handlePut e3 r3 s2 fs3).2 = Blocked).
Proof.
  intros HL Hfail. apply Lock_free in HL.
  assert (Hget : answered StatusInternalServerError (handleGet e r s fs).2 /\
                 mu (handleGet e r s fs).1 = {| readerCount := 1; writerWaiting := false |}).
  { unfold handleGet, RLock. rewrite HL. cbn [writerWaiting readerCount].
    destruct Hfail as [Hf|Hf].
    - rewrite Hf. cbn. split; [eexists; split; reflexivity | reflexivity].
    - rewrite Hf. destruct (os_Open _ _ _); cbn;
        (split; [eexists; split; reflexivity | reflexivity]). }
  destruct Hget as [Hans Hmu]. cbn zeta.
  split; [exact Hans|]. split; [exact Hmu|].
  intros e2 r2 fs2 (H1 & H2 & H3).
  unfold handlePut. rewrite H1, H2, H3. unfold Lock. rewrite Hmu. cbn.
  split; [reflexivity|]. split; [reflexivity|]. split; [reflexivity|]. split.
  - intros e3 r3 fs3. reflexivity.
  - intros e3 r3 fs3 (H1' & H2' & H3'). rewrite H1', H2', H3'. reflexivity.
Qed.

(** A healthy server answers. *)
Lemma ServeHTTP_answers e r s fs :
  healthy s fs -> (ServeHTTP e r s fs).2 <> Blocked.
Proof.
  intros (HL & _). pose proof (Lock_free _ HL) as Hmu. unfold ServeHTTP.
  destruct (negb _); [discriminate|].
  destruct (String.eqb (Method r) MethodHead).
  { unfold handleHead, RLock. rewrite Hmu. discriminate. }
  destruct (String.eqb (Method r) MethodOptions); [discriminate|].
  destruct (String.eqb (Method r) MethodGet).
  { unfold handleGet, RLock. rewrite Hmu. cbn.
    destruct (os_Open _ _ _); [|discriminate]. destruct (get_stat_err e); discriminate. }
  destruct (String.eqb (Method r) MethodPut); [|discriminate].
  unfold handlePut.
  destruct (tempfile_err e); [discriminate|].
  destruct (body_err e); [discriminate|].
  destruct (close_err e); [discriminate|].
  rewrite HL. destruct (handlePutLocked _ _ _ _ _ _) as [[s' fs'] w]. discriminate.
Qed.

(** X12: from a state in which the lock is free and the document (and,
    on a server that compresses, the variant) exists, a run in which no
    [os.Open] or [Stat] of the read path fails answers every request, none
    waits for the lock, and it ends in such a state again, whatever else
    fails in the PUTs. *)
Theorem no_request_waits_while_reads_succeed (reqs : list (Env * Request)) :
  forall s fs,
  healthy s fs ->
  Forall (fun er => read_calm er.1) reqs ->
  let '(s', fs', outs) := serve reqs s fs in
  healthy s' fs' /\ Forall (fun o => o <> Blocked) outs.
Proof.
  induction reqs as [|[e r] rest IH]; intros s fs Hh Hcalm; cbn [serve].
  - split; [exact Hh | constructor].
  - apply Forall_cons in Hcalm as [[Ho Hst] Hcalm]. cbn in Ho, Hst.
    pose proof (ServeHTTP_healthy e r s fs Hh Ho Hst) as Hh1.
    pose proof (ServeHTTP_answers e r s fs Hh) as Hans.
    destruct (ServeHTTP e r s fs) as [[s1 fs1] o]. cbn in Hh1, Hans.
    specialize (IH s1 fs1 Hh1 Hcalm).
    destruct (serve rest s1 fs1) as [[s2 fs2] os].
    destruct IH as [Hh2 Hos]. split; [exact Hh2 | constructor; assumption].
Qed.

(** ** What holds along a run *)

(** X13: when the ETag of the server is the hash of the live document, it
    still is after any run of requests in which no call of [compressWiki]
    returns an error (and no archive file is given the name of the
    document), whatever else fails and whatever the requests are. *)
Theorem etag_is_hash_of_document_along_runs (reqs : list (Env * Request)) :
  forall s fs,
  consistent s fs ->
  Forall (fun er => gz_calm er.1 /\
                    archiveDirName s +:+ "/" +:+ now_formatted er.1 <> fileName s) reqs ->
  let '(s', fs', outs) := serve reqs s fs in
  consistent s' fs'.
Proof.
  induction reqs as [|[e r] rest IH]; intros s fs Hc Hcalm; cbn [serve].
  - exact Hc.
  - apply Forall_cons in Hcalm as [[(H1 & H2 & H3) Hne] Hcalm]. cbn in H1, H2, H3, Hne.
    pose proof (ServeHTTP_consistent e r s fs Hc Hne H1 H2 H3) as Hc1.
    destruct (ServeHTTP_same_config e r s fs) as (Hf & Hd & _).
    destruct (ServeHTTP e r s fs) as [[s1 fs1] o]. cbn in Hc1, Hf, Hd.
    assert (Hcalm1 : Forall (fun er : Env * Request => gz_calm er.1 /\
               archiveDirName s1 +:+ "/" +:+ now_formatted er.1 <> fileName s1) rest)
      by (rewrite Hf, Hd; exact Hcalm).
    specialize (IH s1 fs1 Hc1 Hcalm1).
    destruct (serve rest s1 fs1) as [[s2 fs2] os]. exact IH.
Qed.

(** X14: whatever the requests and the failures, a run removes no file,
    keeps the configuration, and leaves every file as it was that is not
    the document, its compressed variant or a file of the archive
    directory. *)
Theorem runs_write_three_places_only (reqs : list (Env * Request)) :
  forall s fs,
  let '(s', fs', outs) := serve reqs s fs in
  same_config s s' /\
  (forall p, is_Some (fs !! p) -> is_Some (fs' !! p)) /\
  (forall p, p <> fileName s -> p <> gzPathOf s ->
             String.prefix (archiveDirName s +:+ "/") p = false ->
             fs' !! p = fs !! p).
Proof.
  induction reqs as [|[e r] rest IH]; intros s fs; cbn [serve].
  - repeat split; auto.
  - pose proof (ServeHTTP_same_config e r s fs) as Hcfg.
    pose proof (fun p => ServeHTTP_keeps_files e r s fs p) as Hkeep.
    pose proof (fun p => ServeHTTP_other e r s fs p) as Hother.
    destruct (ServeHTTP e r s fs) as [[s1 fs1] o]. cbn in Hcfg, Hkeep, Hother.
    specialize (IH s1 fs1).
    destruct (serve rest s1 fs1) as [[s2 fs2] os].
    destruct IH as (Hcfg2 & Hkeep2 & Hother2).
    destruct Hcfg as (Hf & Hd & Hfm & Ha & Hz).
    destruct Hcfg2 as (Hf2 & Hd2 & Hfm2 & Ha2 & Hz2).
    split; [repeat split; congruence|]. split; [auto|].
    intros p Hp Hgz Hpre.
    rewrite Hother2.
    + apply Hother; [exact Hp | exact Hgz |].
      intros ->. rewrite archivePath_in_archive in Hpre. discriminate.
    + rewrite Hf. exact Hp.
    + unfold gzPathOf. rewrite Hf. exact Hgz.
    + rewrite Hd. exact Hpre.
Qed.

(** ** Start-up *)

Lemma compressWiki_fails_iff (s : Server) (e : Env) (fs : FS) :
  is_Some (fs !! fileName s) ->
  ((compressWiki s e fs).2 <> None <->
   isCompress s = true /\
   (gz_open_err e = true \/ gz_create_err e = true \/ gz_copy_err e <> None)).
Proof.
  intros [doc Hdoc]. unfold compressWiki, os_Open, os_Create.
  destruct (isCompress s); cbn [negb].
  - destruct (gz_open_err e); [cbn; intuition congruence|].
    rewrite Hdoc.
    destruct (gz_create_err e); [cbn; intuition congruence|].
    destruct (gz_copy_err e) as [junk|]; [cbn; intuition congruence|].
    destruct (gz_close_err e); cbn; intuition congruence.
  - cbn. intuition congruence.
Qed.

(** X15: [newServer] ends the process exactly when the wiki file cannot be
    opened or does not exist, the hashing copy fails, or (on a server that
    compresses, which [newServer] makes of one that archives) a call of
    [compressWiki] returns an error.  In no case does start-up change the
    wiki file. *)
Theorem newServer_fails_iff f d fmt a c e fs :
  ((newServer f d fmt a c e fs).2 = None <->
   get_open_err e = true \/ fs !! f = None \/ hash_copy_err e = true \/
   (a = true /\
    (gz_open_err e = true \/ gz_create_err e = true \/ gz_copy_err e <> None))) /\
  (newServer f d fmt a c e fs).1 !! f = fs !! f.
Proof.
  unfold newServer, os_Open. cbn [fileName].
  destruct (get_open_err e); [cbn; split; [intuition congruence | reflexivity]|].
  destruct (fs !! f) as [doc|] eqn:Hdoc; [|cbn; split; [intuition congruence | congruence]].
  destruct (hash_copy_err e); [cbn; split; [intuition congruence | congruence]|].
  set (s1 := setEtagFromHash (MD5.sum doc) _).
  assert (Hsome : is_Some (fs !! fileName s1)) by (cbn; eauto).
  pose proof (compressWiki_fails_iff s1 e fs Hsome) as Hz.
  pose proof (compressWiki_other s1 e fs f (not_eq_sym (gzPath_ne_fileName s1))) as Ho.
  change (isCompress s1) with a in Hz.
  destruct (compressWiki s1 e fs) as [fs1 [err|]]; cbn in Hz, Ho |- *.
  - split; [|congruence]. split; [intros _|reflexivity].
    right. right. right. apply Hz. discriminate.
  - split; [|congruence]. split; [discriminate|].
    intros [?|[?|[?|Hbad]]]; try congruence.
    apply Hz in Hbad. congruence.
Qed.

(** X16: a start-up that succeeds leaves a server whose ETag is the hash
    of the wiki file as it is on disk, whose lock is free, whose files to
    serve exist, and whose configuration is the one given; it has written
    no file but the compressed variant. *)
Theorem startup_establishes_the_invariants f d fmt a c e fs fs' s :
  newServer f d fmt a c e fs = (fs', Some s) ->
  consistent s fs' /\ healthy s fs' /\
  fileName s = f /\ archiveDirName s = d /\ archiveFormat s = fmt /\ isArchive s = a /\
  (forall p, p <> f +:+ extensionGzip -> fs' !! p = fs !! p).
Proof.
  intros Hnew.
  pose proof (newServer_consistent _ _ _ _ _ _ _ _ _ Hnew) as Hc.
  pose proof (newServer_healthy _ _ _ _ _ _ _ _ _ Hnew) as Hh.
  destruct (newServer_started _ _ _ _ _ _ _ _ _ Hnew) as (doc & _ & Hs & Hrun).
  split; [exact Hc|]. split; [exact Hh|].
  rewrite Hs at 1 2 3 4. cbn. repeat split.
  intros p Hp.
  pose proof (compressWiki_other s e fs p) as Ho. rewrite Hrun in Ho. cbn in Ho.
  apply Ho. rewrite Hs. exact Hp.
Qed.

(** ** Failures on the write path *)

(** X17: a PUT whose upload cannot be staged (no temporary file, the body
    cannot be read to the end, the file cannot be closed) is answered 500
    and changes nothing, whatever its token; it does not even ask for the
    lock, so it is answered when the lock is held for ever. *)
Theorem staging_failure_changes_nothing e r s fs :
  ~ staged_ok e ->
  handlePut e r s fs = (s, fs, respond StatusInternalServerError ∅ []).
Proof.
  intros Hn. unfold handlePut, staged_ok in *.
  destruct (tempfile_err e); [reflexivity|].
  destruct (body_err e); [reflexivity|].
  destruct (close_err e); [reflexivity|]. tauto.
Qed.




(** X21: on a server that does not archive, whose document and variant
    are not kept in the archive directory, no request changes the content
    of the archive directory. *)
Theorem no_archiving_when_disabled e r s fs :
  isArchive s = false -> outside_archive s ->
  archiveEntries (ServeHTTP e r s fs).1.1 (ServeHTTP e r s fs).1.2 = archiveEntries s fs.
Proof.
  intros Ha Hout.
  rewrite (archiveEntries_same_dir s) by apply ServeHTTP_same_config.
  destruct (String.eqb_spec (Method r) MethodPut) as [Hm|Hm];
    [destruct (String.eqb_spec (URLPath r) "/") as [Hp|Hp]|];
    [| rewrite ServeHTTP_reads_only by tauto; reflexivity..].
  rewrite ServeHTTP_put by assumption. unfold handlePut.
  destruct (tempfile_err e); [reflexivity|].
  destruct (body_err e); [reflexivity|].
  destruct (close_err e); [reflexivity|].
  destruct (Lock (mu s)); [|reflexivity].
  unfold handlePutLocked.
  destruct (negb _ && negb _); [reflexivity|].
  rewrite archiveWiki_off by exact Ha.
  destruct (rename_err e); [reflexivity|].
  pose proof (compressWiki_archiveEntries s e (<[fileName s := Body r]> fs) Hout) as Hz.
  rewrite archiveEntries_insert_out in Hz by apply Hout.
  destruct (compressWiki s e _) as [fs3 [err|]]; exact Hz.
Qed.

(** ** Tokens across two requests *)

(** X22: after a PUT that was answered 200, a PUT that carries a non-empty
    token other than the ETag of the bytes just uploaded is answered 412
    (its upload being staged) and changes nothing, so the uploaded bytes
    stay live: a client that still holds the ETag of the replaced document
    cannot overwrite the new one.  When the uploaded bytes are the bytes
    that were live, the ETag does not change and tokens stay valid. *)
Theorem stale_token_is_rejected_after_a_save e1 r1 s fs e2 r2 :
  succeeded (handlePut e1 r1 s fs).2 ->
  staged_ok e2 ->
  Get headerIfMatch (ReqHeader r2) <> ""%string ->
  Get headerIfMatch (ReqHeader r2) <> etagOf (Body r1) ->
  let '(s1, fs1, _) := handlePut e1 r1 s fs in
  handlePut e2 r2 s1 fs1 = (s1, fs1, respond StatusPreconditionFailed ∅ []) /\
  fs1 !! fileName s1 = Some (Body r1) /\
  (consistent s fs -> fs !! fileName s = Some (Body r1) -> etag s1 = etag s).
Proof.
  intros Hok Hst H1 H2.
  pose proof (handlePut_succeeded e1 r1 s fs) as Hs.
  pose proof (handlePut_unlocks e1 r1 s fs) as Hmu.
  destruct (handlePut e1 r1 s fs) as [[s1 fs1] o]. cbn in Hok, Hmu.
  destruct (Hs Hok) as (_ & HL & _ & Hs1 & _ & Hdoc & _).
  specialize (Hmu HL).
  split; [|split].
  - rewrite handlePut_reaches_check by (rewrite ?Hmu; assumption).
    rewrite handlePutLocked_conflict; [reflexivity | exact H1 |].
    rewrite Hs1. exact H2.
  - rewrite Hs1. exact Hdoc.
  - intros (doc & Hd & He) Hsame. rewrite Hs1, He. cbn.
    rewrite Hsame in Hd. injection Hd as <-. reflexivity.
Qed.

(** ** Which variant a GET is given *)

(** X23: a GET without conditional or range headers that is answered
    carries Content-Encoding gzip exactly when the server compresses and
    "gzip" occurs somewhere in the value of Accept-Encoding (so also for
    "gzip;q=0"); otherwise it carries no Content-Encoding at all. *)
Theorem content_encoding_follows_accept_encoding e r s fs w :
  plain (ReqHeader r) ->
  (handleGet e r s fs).2 = Responded w ->
  (RespHeader w !! headerContentEncoding = Some encodingGzip <->
   isCompress s = true /\
   exists a b, Get headerAcceptEncoding (ReqHeader r) = a +:+ encodingGzip +:+ b) /\
  (RespHeader w !! headerContentEncoding = Some encodingGzip \/
   RespHeader w !! headerContentEncoding = None).
Proof.
  intros Hplain Hw. rewrite <- Contains_spec.
  unfold handleGet in Hw. destruct (RLock (mu s)) as [m|]; [|discriminate Hw].
  cbn zeta in Hw.
  destruct (isCompress s) eqn:Hc; cbn [andb] in Hw.
  - destruct (Contains _ encodingGzip) eqn:Ha.
    + assert (Hhdr : RespHeader w !! headerContentEncoding = Some encodingGzip).
      { destruct (os_Open _ _ _) as [content|]; [destruct (get_stat_err e)|];
          cbn [snd] in Hw; unfold respond in Hw;
          rewrite ?ServeContent_plain in Hw by exact Hplain;
          injection Hw as <-; cbn [RespHeader];
          rewrite ?lookup_insert_ne by discriminate; apply lookup_singleton_eq. }
      rewrite Hhdr. split; [split; auto | auto].
    + assert (Hhdr : RespHeader w !! headerContentEncoding = None).
      { destruct (os_Open _ _ _) as [content|]; [destruct (get_stat_err e)|];
          cbn [snd] in Hw; unfold respond in Hw;
          rewrite ?ServeContent_plain in Hw by exact Hplain;
          injection Hw as <-; cbn [RespHeader];
          rewrite ?lookup_insert_ne by discriminate; apply lookup_empty. }
      rewrite Hhdr. split; [split; [discriminate | intros [_ ?]; discriminate] | auto].
  - assert (Hhdr : RespHeader w !! headerContentEncoding = None).
    { destruct (os_Open _ _ _) as [content|]; [destruct (get_stat_err e)|];
        cbn [snd] in Hw; unfold respond in Hw;
        rewrite ?ServeContent_plain in Hw by exact Hplain;
        injection Hw as <-; cbn [RespHeader];
        rewrite ?lookup_insert_ne by discriminate; apply lookup_empty. }
    rewrite Hhdr. split; [split; [discriminate | intros [? _]; discriminate] | auto].
Qed.

End MoreOfTheServer.

(** ** The first program *)

(** X24: the first program has no conditional write and no managed path: a
    PUT, whatever its URL path and its headers, whose upload is staged
    replaces index.html when no call fails, having copied the replaced
    document to old/<time>.html, and writes no other file; when there is
    no index.html to archive it is answered 500 and nothing changes. *)
Theorem first_program_put_overwrites_unconditionally
    (fileServer : FS -> Request -> Response) e r fs :
  Method r = MethodPut -> staged_ok e ->
  let '(fs', w) := Simple.handle fileServer e r fs in
  (fs !! "index.html"%string = None -> fs' = fs /\ Status w = StatusInternalServerError) /\
  (forall doc,
     fs !! "index.html"%string = Some doc ->
     archive_open_err e = false -> archive_create_err e = false ->
     archive_copy_err e = None -> rename_err e = false ->
     Status w = StatusOK /\
     fs' !! "index.html"%string = Some (Body r) /\
     fs' !! ("old/" +:+ now_formatted e +:+ ".html") = Some doc /\
     forall p, p <> "index.html"%string -> p <> "old/" +:+ now_formatted e +:+ ".html" ->
               fs' !! p = fs !! p).
Proof.
  intros Hm (H1 & H2 & H3). unfold Simple.handle. rewrite Hm.
  change (String.eqb MethodPut MethodGet) with false.
  change (String.eqb MethodPut MethodOptions) with false.
  change (String.eqb MethodPut MethodPut) with true. cbn iota.
  unfold Simple.handlePut, Simple.archiveWiki, os_Open, os_Create.
  rewrite H1, H2, H3.
  assert (Hne : "old/" +:+ now_formatted e +:+ ".html" <> "index.html"%string)
    by (change ("old/" +:+ now_formatted e +:+ ".html")
          with (String "o" ("ld/" +:+ now_formatted e +:+ ".html")); discriminate).
  set (apath := "old/" +:+ now_formatted e +:+ ".html") in *.
  destruct (archive_open_err e);
    [cbn; split; [auto | intros; discriminate]|].
  destruct (fs !! "index.html"%string) as [doc0|] eqn:Hdoc0;
    [|cbn; split; [auto | intros; discriminate]].
  destruct (archive_create_err e);
    [cbn; split; [intros; discriminate | intros; discriminate]|].
  destruct (archive_copy_err e);
    [cbn; split; [intros; discriminate | intros; discriminate]|].
  destruct (rename_err e);
    [cbn; split; [intros; discriminate | intros; discriminate]|].
  cbn. split; [intros; discriminate|].
  intros doc [= <-] _ _ _ _.
  split; [reflexivity|]. split; [apply lookup_insert_eq|]. split.
  - rewrite lookup_insert_ne by (apply not_eq_sym, Hne).
    rewrite lookup_insert_eq, lookup_insert_ne by exact Hne.
    rewrite Hdoc0. reflexivity.
  - intros p Hp Hpa. rewrite !lookup_insert_ne by congruence. reflexivity.
Qed.

Section TwoPrograms.
Context {codec : Gzip}.

(** X25: on a PUT without token, the program with the [Server], set to
    serve index.html and to archive into old, with the lock free and the
    time formatted with ".html" at the end, answers with the status the
    first program answers with and leaves every file as the first program
    leaves it, but for the compressed variant, which it alone writes; this
    whatever fails, as long as no call of [compressWiki] does. *)
Theorem server_without_token_acts_as_first_program e r s fs :
  fileName s = "index.html"%string -> archiveDirName s = "old"%string ->
  isArchive s = true ->
  Lock (mu s) = true -> Get headerIfMatch (ReqHeader r) = ""%string ->
  gz_calm e ->
  let '(s', fs', o) := handlePut (with_stamp (now_formatted e +:+ ".html") e) r s fs in
  let '(fs0, w0) := Simple.handlePut e r fs in
  (forall p, p <> "index.html.gz"%string -> fs' !! p = fs0 !! p) /\
  exists w, o = Responded w /\ Status w = Status w0.
Proof.
  intros Hf Hd Ha HL Htok (Hzo & Hzc & Hzp).
  unfold handlePut, Simple.handlePut. cbn [with_stamp tempfile_err body_err close_err].
  destruct (tempfile_err e); [split; [reflexivity | eexists; split; reflexivity]|].
  destruct (body_err e); [split; [reflexivity | eexists; split; reflexivity]|].
  destruct (close_err e); [split; [reflexivity | eexists; split; reflexivity]|].
  rewrite HL. unfold handlePutLocked.
  rewrite (check_pass _ _ (or_introl Htok)).
  assert (Harch : archiveWiki s (with_stamp (now_formatted e +:+ ".html") e) fs =
                  Simple.archiveWiki e fs).
  { unfold archiveWiki, Simple.archiveWiki, archivePathOf. rewrite Ha, Hf, Hd. reflexivity. }
  rewrite Harch. cbn [with_stamp rename_err].
  destruct (Simple.archiveWiki e fs) as [fs1 [err|]];
    [split; [reflexivity | eexists; split; reflexivity]|].
  destruct (rename_err e); [split; [reflexivity | eexists; split; reflexivity]|].
  set (e' := with_stamp _ e).
  assert (Hz : (compressWiki s e' (<[fileName s := Body r]> fs1)).2 = None).
  { apply compressWiki_calm; auto. rewrite lookup_insert_eq. eauto. }
  pose proof (fun p => compressWiki_other s e' (<[fileName s := Body r]> fs1) p) as Ho.
  destruct (compressWiki s e' _) as [fs3 [err|]]; [discriminate Hz|]. cbn in Ho.
  split; [|eexists; split; reflexivity].
  intros p Hp. rewrite Ho, Hf; [reflexivity|].
  unfold gzPathOf. rewrite Hf. exact Hp.
Qed.

End TwoPrograms.

(** ** The added properties on the small site *)

(** OPTIONS on a server whose lock is held for ever. *)
Lemma options_needs_no_lock_witness :
  let stuck := set_mu {| readerCount := 1; writerWaiting := true |} server1 in
  URLPath reqOptions = "/"%string /\ Method reqOptions = MethodOptions /\
  (handleHead stuck).2 = Blocked /\
  ServeHTTP (calm "") reqOptions stuck disk1 =
    (stuck, disk1, respond StatusOK {[ headerDav := "putter"%string ]} []).
Proof.
  intros stuck. split; [reflexivity|]. split; [reflexivity|]. split; [reflexivity|].
  exact (options_needs_no_lock (calm "") reqOptions stuck disk1 eq_refl eq_refl).
Defined.

(** A HEAD after start-up. *)
Lemma reads_change_nothing_witness :
  URLPath reqHead = "/"%string /\
  (Method reqHead = MethodHead \/ Method reqHead = MethodGet) /\
  (ServeHTTP (calm "") reqHead server1 disk1).1.1 = server1 /\
  (ServeHTTP (calm "") reqHead server1 disk1).2 =
    respond StatusOK {[ headerEtag := etagOf v1 ]} [].
Proof.
  assert (Hrun : (ServeHTTP (calm "") reqHead server1 disk1).2 =
                 respond StatusOK {[ headerEtag := etagOf v1 ]} [])
    by (vm_compute; reflexivity).
  split; [reflexivity|]. split; [left; reflexivity|].
  pose proof (reads_change_nothing (calm "") reqHead server1 disk1 eq_refl
                (or_introl eq_refl)) as H.
  destruct (ServeHTTP (calm "") reqHead server1 disk1) as [[s' fs'] o].
  cbn in Hrun |- *. destruct H as (_ & _ & _ & Hs & _).
  split; [|exact Hrun]. apply Hs; rewrite Hrun.
  - discriminate.
  - intros (w & [= <-] & Hst). discriminate Hst.
Defined.

(** A GET of the plain document after start-up. *)
Lemma get_serves_the_document_with_its_etag_witness :
  consistent server1 disk1 /\ writerWaiting (mu server1) = false /\
  read_calm (calm "") /\ plain (ReqHeader (reqGet None)) /\
  isCompress server1 &&
    Contains (Get headerAcceptEncoding (ReqHeader (reqGet None))) encodingGzip = false /\
  (handleGet (calm "") (reqGet None) server1 disk1).2 =
    respond StatusOK
      (<[ headerEtag := etagOf v1 ]> {[ headerContentLength := "2"%string ]}) v1.
Proof.
  assert (Hdoc : disk1 !! fileName server1 = Some v1) by (vm_compute; reflexivity).
  assert (H1 : consistent server1 disk1) by (exists v1; split; [exact Hdoc | reflexivity]).
  assert (H2 : writerWaiting (mu server1) = false) by reflexivity.
  assert (H3 : read_calm (calm "")) by (split; reflexivity).
  assert (H4 : plain (ReqHeader (reqGet None))) by (repeat constructor).
  assert (H5 : isCompress server1 &&
    Contains (Get headerAcceptEncoding (ReqHeader (reqGet None))) encodingGzip = false)
    by (vm_compute; reflexivity).
  repeat (split; [assumption|]).
  destruct (get_serves_the_document_with_its_etag (calm "") (reqGet None) server1 disk1
              H1 H2 H3 H4 H5) as (doc & Hd & Hg & _).
  rewrite Hdoc in Hd. injection Hd as <-. rewrite Hg. reflexivity.
Defined.

(** The PUT of "v2", then a GET that accepts gzip. *)
Lemma put_then_gzip_get_round_trip_witness :
  isCompress server1 = true /\ gz_close_err (calm stamp1) = None /\
  succeeded (handlePut (calm stamp1) (reqPut v2 None) server1 disk1).2 /\
  read_calm (calm "") /\ plain (ReqHeader (reqGet (Some "gzip"%string))) /\
  Contains (Get headerAcceptEncoding (ReqHeader (reqGet (Some "gzip"%string))))
    encodingGzip = true /\
  (handleGet (calm "") (reqGet (Some "gzip"%string)) server2 disk2).2 =
    respond StatusOK
      (<[ headerEtag := etagOf v2 ]>
         (<[ headerContentLength := pretty (Z.of_nat (length (framed_gzip v2))) ]>
            {[ headerContentEncoding := encodingGzip ]})) (framed_gzip v2) /\
  framed_gunzip (framed_gzip v2) = Some v2.
Proof.
  assert (Hrun : handlePut (calm stamp1) (reqPut v2 None) server1 disk1 =
                 (server2, disk2, respond StatusOK {[ headerEtag := etagOf v2 ]} []))
    by (vm_compute; reflexivity).
  assert (H1 : isCompress server1 = true) by reflexivity.
  assert (H2 : gz_close_err (calm stamp1) = None) by reflexivity.
  assert (H3 : succeeded (handlePut (calm stamp1) (reqPut v2 None) server1 disk1).2)
    by (rewrite Hrun; eexists; split; reflexivity).
  assert (H4 : read_calm (calm "")) by (split; reflexivity).
  assert (H5 : plain (ReqHeader (reqGet (Some "gzip"%string)))) by (repeat constructor).
  assert (H6 : Contains (Get headerAcceptEncoding (ReqHeader (reqGet (Some "gzip"%string))))
                 encodingGzip = true) by (vm_compute; reflexivity).
  repeat (split; [assumption|]).
  pose proof (put_then_gzip_get_round_trip (calm stamp1) (reqPut v2 None) server1 disk1
                (calm "") (reqGet (Some "gzip"%string)) H1 H2 H3 H4 H5 H6) as H.
  rewrite Hrun in H. destruct H as (Hg & Hu & _). split; [exact Hg | exact Hu].
Defined.

(** A GET whose [os.Open] fails, then a PUT. *)
Lemma failed_get_blocks_the_server_witness :
  let r := reqGet (Some "gzip"%string) in
  let s1 := (handleGet (get_open_fails "") r server1 disk1).1 in
  Lock (mu server1) = true /\ get_open_err (get_open_fails "") = true /\
  staged_ok (calm stamp1) /\
  (handlePut (calm stamp1) (reqPut v2 None) s1 disk1).2 = Blocked.
Proof.
  intros r s1.
  assert (H1 : Lock (mu server1) = true) by reflexivity.
  assert (H2 : staged_ok (calm stamp1)) by (repeat split; reflexivity).
  split; [exact H1|]. split; [reflexivity|]. split; [exact H2|].
  destruct (failed_get_blocks_the_server (get_open_fails "") r server1 disk1 H1
              (or_introl eq_refl)) as (_ & _ & H).
  specialize (H (calm stamp1) (reqPut v2 None) disk1 H2). fold s1 in H.
  destruct (handlePut (calm stamp1) (reqPut v2 None) s1 disk1) as [[s2 fs2] o2].
  exact (proj1 H).
Defined.

(** A GET, a PUT and a HEAD that meet no failing call. *)
Lemma no_request_waits_while_reads_succeed_witness :
  let reqs := [(calm "", reqGet (Some "gzip"%string));
               (calm stamp1, reqPut v2 None); (calm "", reqHead)] in
  healthy server1 disk1 /\ Forall (fun er => read_calm er.1) reqs /\
  Forall (fun o => o <> Blocked) (serve reqs server1 disk1).2.
Proof.
  intros reqs.
  assert (H1 : healthy server1 disk1).
  { split; [reflexivity|].
    split; [|intros _]; eexists; vm_compute; reflexivity. }
  assert (H2 : Forall (fun er => read_calm er.1) reqs)
    by (repeat constructor).
  split; [exact H1|]. split; [exact H2|].
  pose proof (no_request_waits_while_reads_succeed reqs server1 disk1 H1 H2) as H.
  destruct (serve reqs server1 disk1) as [[s' fs'] outs]. exact (proj2 H).
Defined.

(** A PUT that succeeds and one whose body cannot be read. *)
Lemma etag_is_hash_of_document_along_runs_witness :
  let reqs := [(calm stamp1, reqPut v2 None); (body_fails stamp2, reqPut v3 None)] in
  consistent server1 disk1 /\
  Forall (fun er => gz_calm er.1 /\
            archiveDirName server1 +:+ "/" +:+ now_formatted er.1 <> fileName server1) reqs /\
  consistent (serve reqs server1 disk1).1.1 (serve reqs server1 disk1).1.2.
Proof.
  intros reqs.
  assert (H1 : consistent server1 disk1)
    by (exists v1; split; [vm_compute; reflexivity | reflexivity]).
  assert (H2 : Forall (fun er => gz_calm er.1 /\
            archiveDirName server1 +:+ "/" +:+ now_formatted er.1 <> fileName server1) reqs).
  { repeat constructor; vm_compute; discriminate. }
  split; [exact H1|]. split; [exact H2|].
  pose proof (etag_is_hash_of_document_along_runs reqs server1 disk1 H1 H2) as H.
  destruct (serve reqs server1 disk1) as [[s' fs'] outs]. exact H.
Defined.

(** Start-up with the default flags. *)
Lemma startup_establishes_the_invariants_witness :
  newServer "index.html" "old" "2006-01-02-15-04-05.000.html" true true (calm "") disk0 =
    (disk1, Some server1) /\
  consistent server1 disk1 /\ healthy server1 disk1.
Proof.
  assert (H : newServer "index.html" "old" "2006-01-02-15-04-05.000.html" true true
                (calm "") disk0 = (disk1, Some server1)) by exact startup_default.
  split; [exact H|].
  destruct (startup_establishes_the_invariants _ _ _ _ _ _ _ _ _ H) as (Hc & Hh & _).
  split; assumption.
Defined.

(** A PUT whose body cannot be read. *)
Lemma staging_failure_changes_nothing_witness :
  ~ staged_ok (body_fails stamp1) /\
  handlePut (body_fails stamp1) (reqPut v2 None) server1 disk1 =
    (server1, disk1, respond StatusInternalServerError ∅ []).
Proof.
  assert (H : ~ staged_ok (body_fails stamp1)) by (intros (_ & Hb & _); discriminate Hb).
  split; [exact H|].
  exact (staging_failure_changes_nothing (body_fails stamp1) (reqPut v2 None) server1 disk1 H).
Defined.




(** A PUT on the server started with --archive=false. *)
Lemma no_archiving_when_disabled_witness :
  isArchive server_plain = false /\ outside_archive server_plain /\
  archiveEntries (ServeHTTP (calm stamp1) (reqPut v2 None) server_plain disk0).1.1
                 (ServeHTTP (calm stamp1) (reqPut v2 None) server_plain disk0).1.2 =
    archiveEntries server_plain disk0.
Proof.
  assert (H1 : isArchive server_plain = false) by reflexivity.
  assert (H2 : outside_archive server_plain) by (split; vm_compute; reflexivity).
  split; [exact H1|]. split; [exact H2|].
  exact (no_archiving_when_disabled (calm stamp1) (reqPut v2 None) server_plain disk0 H1 H2).
Defined.

(** The PUT of "v2", then a PUT of "v3" with the ETag of "v1". *)
Lemma stale_token_is_rejected_after_a_save_witness :
  let r1 := reqPut v2 (Some (etagOf v1)) in
  let r2 := reqPut v3 (Some (etagOf v1)) in
  succeeded (handlePut (calm stamp1) r1 server1 disk1).2 /\
  staged_ok (calm stamp2) /\
  Get headerIfMatch (ReqHeader r2) <> ""%string /\
  Get headerIfMatch (ReqHeader r2) <> etagOf (Body r1) /\
  handlePut (calm stamp2) r2 server2 disk2 =
    (server2, disk2, respond StatusPreconditionFailed ∅ []).
Proof.
  intros r1 r2.
  assert (Hrun : handlePut (calm stamp1) r1 server1 disk1 =
                 (server2, disk2, respond StatusOK {[ headerEtag := etagOf v2 ]} []))
    by (vm_compute; reflexivity).
  assert (H1 : succeeded (handlePut (calm stamp1) r1 server1 disk1).2)
    by (rewrite Hrun; eexists; split; reflexivity).
  assert (H2 : staged_ok (calm stamp2)) by (repeat split; reflexivity).
  assert (H3 : Get headerIfMatch (ReqHeader r2) <> ""%string) by (vm_compute; discriminate).
  assert (H4 : Get headerIfMatch (ReqHeader r2) <> etagOf (Body r1))
    by (vm_compute; discriminate).
  repeat (split; [assumption|]).
  pose proof (stale_token_is_rejected_after_a_save (calm stamp1) r1 server1 disk1
                (calm stamp2) r2 H1 H2 H3 H4) as H.
  rewrite Hrun in H. exact (proj1 H).
Defined.

(** A GET that refuses gzip with a quality of zero is given gzip. *)
Lemma content_encoding_follows_accept_encoding_witness :
  let r := reqGet (Some "gzip;q=0"%string) in
  plain (ReqHeader r) /\
  exists w, (handleGet (calm "") r server1 disk1).2 = Responded w /\
            RespHeader w !! headerContentEncoding = Some encodingGzip /\
            RespBody w = framed_gzip v1.
Proof.
  intros r.
  assert (H1 : plain (ReqHeader r)) by (repeat constructor).
  split; [exact H1|].
  eexists. split; [vm_compute; reflexivity|]. split; [|reflexivity].
  eapply (content_encoding_follows_accept_encoding (calm "") r server1 disk1 _ H1).
  - vm_compute. reflexivity.
  - split; [reflexivity|]. exists ""%string, ";q=0"%string. reflexivity.
Defined.

(** A PUT to another path, with a stale token, on the first program. *)
Lemma first_program_put_overwrites_unconditionally_witness :
  let fileServer := fun (_ : FS) (_ : Request) =>
    {| Status := StatusNotFound; RespHeader := ∅; RespBody := [] |} in
  let r := {| Method := MethodPut; URLPath := "/elsewhere";
              ReqHeader := {[ headerIfMatch := etagOf v3 ]}; Body := v2 |} in
  Method r = MethodPut /\ staged_ok (calm "2026-01-02-03-04-05.000") /\
  disk0 !! "index.html"%string = Some v1 /\
  Status (Simple.handle fileServer (calm "2026-01-02-03-04-05.000") r disk0).2 = StatusOK /\
  (Simple.handle fileServer (calm "2026-01-02-03-04-05.000") r disk0).1
    !! "index.html"%string = Some v2.
Proof.
  intros fileServer r.
  assert (H1 : Method r = MethodPut) by reflexivity.
  assert (H2 : staged_ok (calm "2026-01-02-03-04-05.000")) by (repeat split; reflexivity).
  assert (H3 : disk0 !! "index.html"%string = Some v1) by (vm_compute; reflexivity).
  repeat (split; [assumption|]).
  pose proof (first_program_put_overwrites_unconditionally fileServer
                (calm "2026-01-02-03-04-05.000") r disk0 H1 H2) as H.
  destruct (Simple.handle fileServer (calm "2026-01-02-03-04-05.000") r disk0) as [fs' w].
  destruct H as [_ H].
  destruct (H v1 H3 eq_refl eq_refl eq_refl eq_refl) as (Hst & Hd & _).
  split; assumption.
Defined.

(** The unconditional PUT of "v2", by both programs. *)
Lemma server_without_token_acts_as_first_program_witness :
  let e := calm "2026-01-02-03-04-05.000" in
  let r := reqPut v2 None in
  fileName server1 = "index.html"%string /\ archiveDirName server1 = "old"%string /\
  isArchive server1 = true /\ Lock (mu server1) = true /\
  Get headerIfMatch (ReqHeader r) = ""%string /\ gz_calm e /\
  (handlePut (with_stamp (now_formatted e +:+ ".html") e) r server1 disk1).1.2
    !! "index.html"%string =
  (Simple.handlePut e r disk1).1 !! "index.html"%string.
Proof.
  intros e r.
  assert (H6 : gz_calm e) by (repeat split; reflexivity).
  repeat (split; [first [reflexivity | exact H6]|]).
  pose proof (server_without_token_acts_as_first_program e r server1 disk1
                eq_refl eq_refl eq_refl eq_refl eq_refl H6) as H.
  destruct (handlePut _ r server1 disk1) as [[s' fs'] o].
  destruct (Simple.handlePut e r disk1) as [fs0 w0].
  destruct H as [H _]. apply H. discriminate.
Defined.
